(** * The cluster-health collector of the Elasticsearch exporter

    A shallow embedding of [collector/cluster_health.go] and the properties
    of its scrape cycle: the one-hot status expansion, the degraded output on
    a failed fetch, the bookkeeping of the meta-metrics, the descriptor set
    and the order of emission.

    Go values are modelled as follows.
    - [string] is [String.string] (a byte sequence, as in Go).
    - [int] is [Z]; the JSON decoder is the only producer of [int] values
      and checks the 64-bit range itself.
    - [float64] is the primitive binary64 float of Rocq.
    - A [chan<-] parameter is the ordered list of the values sent on it.
    - Pointers to objects that are never written after construction (the
      descriptors, the metric table) are modelled by the objects themselves;
      the objects that are written (the five meta-metrics) and the URL the
      collector shares with its creator are fields of the collector state,
      which every operation threads through. *)

From Stdlib Require Import ZArith List String Ascii Bool Lia.
From Stdlib Require Import DecimalString DecimalZ DecimalPos.
From Stdlib Require Import Floats.PrimFloat Numbers.Cyclic.Int63.Uint63.
Import ListNotations.

Local Open Scope string_scope.
Local Open Scope Z_scope.
Local Open Scope list_scope.

(* ================================================================== *)
(** ** Numbers *)

Definition float64 : Set := PrimFloat.float.

(** The conversion [float64(n)] of a Go [int64]: round to nearest, ties to
    even.  [of_uint63] converts the magnitude; [-2^63], whose magnitude is
    not a 63-bit number, is the exact power of two. *)
Definition float64_of_int (n : Z) : float64 :=
  if n =? - 2 ^ 63 then
    PrimFloat.opp (PrimFloat.mul (PrimFloat.of_uint63 (Uint63.of_Z (2 ^ 62))) 2%float)
  else if n <? 0 then PrimFloat.opp (PrimFloat.of_uint63 (Uint63.of_Z (- n)))
  else PrimFloat.of_uint63 (Uint63.of_Z n).

Definition minInt64 : Z := - 2 ^ 63.
Definition maxInt64 : Z := 2 ^ 63 - 1.

(** [strconv.Itoa] / the [%d] verb: decimal, with a minus sign for
    negative numbers. *)
Definition strconv_Itoa (n : Z) : string := NilZero.string_of_int (Z.to_int n).

Definition is_digit (c : ascii) : bool :=
  let n := Z.of_nat (nat_of_ascii c) in (48 <=? n) && (n <=? 57).

Fixpoint parse_digits (s : string) (acc : Z) : option Z :=
  match s with
  | EmptyString => Some acc
  | String c rest =>
      if is_digit c
      then parse_digits rest (10 * acc + (Z.of_nat (nat_of_ascii c) - 48))
      else None
  end.

(** [strconv.ParseInt(s, 10, 64)]: an optional sign, then one or more
    decimal digits, and the value has to fit 64 bits. *)
Definition strconv_ParseInt (s : string) : option Z :=
  let unsigned (digits : string) :=
    match digits with
    | EmptyString => None
    | _ => parse_digits digits 0
    end in
  let parsed :=
    match s with
    | String "-"%char rest => option_map Z.opp (unsigned rest)
    | String "+"%char rest => unsigned rest
    | _ => unsigned s
    end in
  match parsed with
  | Some n => if (minInt64 <=? n) && (n <=? maxInt64) then Some n else None
  | None => None
  end.

(* ================================================================== *)
(** ** Errors *)

(** The [error] values that flow through the collector.  The transport
    error is whatever [http.Client.Get] returned; the three decoder errors
    are those of [encoding/json]. *)
Inductive error : Type :=
| errorString (msg : string)
    (* built by fmt.Errorf *)
| transportError (msg : string)
    (* returned by http.Client.Get: the request could not be completed *)
| readError (msg : string)
    (* io.EOF, io.ErrUnexpectedEOF or a failed read of the body *)
| json_SyntaxError (msg : string)
| json_UnmarshalTypeError (Value GoType Struct Field : string).

(** The [Error()] method. *)
Definition Error (e : error) : string :=
  match e with
  | errorString msg | transportError msg | readError msg | json_SyntaxError msg => msg
  | json_UnmarshalTypeError v t s f =>
      match s, f with
      | EmptyString, EmptyString =>
          "json: cannot unmarshal " ++ v ++ " into Go value of type " ++ t
      | _, _ =>
          "json: cannot unmarshal " ++ v ++ " into Go struct field "
            ++ s ++ "." ++ f ++ " of type " ++ t
      end
  end.

Definition fmt_Errorf (msg : string) : error := errorString msg.

(** Which errors come out of [Decoder.Decode]. *)
Definition is_decode_error (e : error) : bool :=
  match e with
  | readError _ | json_SyntaxError _ | json_UnmarshalTypeError _ _ _ _ => true
  | errorString _ | transportError _ => false
  end.

(* ================================================================== *)
(** ** The health record *)

(** Modelled from the spec: the declaration of [clusterHealthResponse] is
    not part of [cluster_health.go].  The fields are the ones the extractor
    closures of [NewClusterHealth] read, with the types and the JSON names
    of the response schema: two strings, a boolean and ten integers. *)
Record clusterHealthResponse : Type := mkClusterHealthResponse {
  ClusterName : string;
  Status : string;
  TimedOut : bool;
  ActivePrimaryShards : Z;
  ActiveShards : Z;
  DelayedUnassignedShards : Z;
  InitializingShards : Z;
  NumberOfDataNodes : Z;
  NumberOfInFlightFetch : Z;
  NumberOfNodes : Z;
  NumberOfPendingTasks : Z;
  RelocatingShards : Z;
  UnassignedShards : Z
}.

(** [var chr clusterHealthResponse]: every field holds its zero value. *)
Definition zero_clusterHealthResponse : clusterHealthResponse :=
  mkClusterHealthResponse "" "" false 0 0 0 0 0 0 0 0 0 0.

Module Store.
(** Assignment to one field of the record. *)
Definition ClusterName v r :=
  let 'mkClusterHealthResponse _ b c d e f g h i j k l m := r in
  mkClusterHealthResponse v b c d e f g h i j k l m.
Definition Status v r :=
  let 'mkClusterHealthResponse a _ c d e f g h i j k l m := r in
  mkClusterHealthResponse a v c d e f g h i j k l m.
Definition TimedOut v r :=
  let 'mkClusterHealthResponse a b _ d e f g h i j k l m := r in
  mkClusterHealthResponse a b v d e f g h i j k l m.
Definition ActivePrimaryShards v r :=
  let 'mkClusterHealthResponse a b c _ e f g h i j k l m := r in
  mkClusterHealthResponse a b c v e f g h i j k l m.
Definition ActiveShards v r :=
  let 'mkClusterHealthResponse a b c d _ f g h i j k l m := r in
  mkClusterHealthResponse a b c d v f g h i j k l m.
Definition DelayedUnassignedShards v r :=
  let 'mkClusterHealthResponse a b c d e _ g h i j k l m := r in
  mkClusterHealthResponse a b c d e v g h i j k l m.
Definition InitializingShards v r :=
  let 'mkClusterHealthResponse a b c d e f _ h i j k l m := r in
  mkClusterHealthResponse a b c d e f v h i j k l m.
Definition NumberOfDataNodes v r :=
  let 'mkClusterHealthResponse a b c d e f g _ i j k l m := r in
  mkClusterHealthResponse a b c d e f g v i j k l m.
Definition NumberOfInFlightFetch v r :=
  let 'mkClusterHealthResponse a b c d e f g h _ j k l m := r in
  mkClusterHealthResponse a b c d e f g h v j k l m.
Definition NumberOfNodes v r :=
  let 'mkClusterHealthResponse a b c d e f g h i _ k l m := r in
  mkClusterHealthResponse a b c d e f g h i v k l m.
Definition NumberOfPendingTasks v r :=
  let 'mkClusterHealthResponse a b c d e f g h i j _ l m := r in
  mkClusterHealthResponse a b c d e f g h i j v l m.
Definition RelocatingShards v r :=
  let 'mkClusterHealthResponse a b c d e f g h i j k _ m := r in
  mkClusterHealthResponse a b c d e f g h i j k v m.
Definition UnassignedShards v r :=
  let 'mkClusterHealthResponse a b c d e f g h i j k l _ := r in
  mkClusterHealthResponse a b c d e f g h i j k l v.
End Store.

(* ================================================================== *)
(** ** Decoding the response body

    [json.NewDecoder(res.Body).Decode(&chr)] works in two phases.  It first
    reads one complete JSON value from the stream and checks its syntax; a
    read error, an empty body or a syntax error ends the call before
    anything is stored.  It then stores the value into the target.  A JSON
    value that does not fit the Go type of its target is recorded as an
    [UnmarshalTypeError], the field is skipped and decoding goes on; the
    first such error is returned once the whole value has been stored.

    The body is modelled by the outcome of the first phase: the error, or
    the syntax tree of the value (strings unquoted, numbers as written). *)

#[local] Unset Elimination Schemes.
Inductive json_Value : Type :=
| JNull
| JBool (b : bool)
| JNumber (literal : string)
| JString (s : string)
| JArray (elements : list json_Value)
| JObject (members : list (string * json_Value)).
#[local] Set Elimination Schemes.

Inductive Body : Type :=
| BodyUnreadable (e : error)
| BodyJSON (v : json_Value).

(** The name the decoder reports for the kind of a JSON value. *)
Definition json_kind (v : json_Value) : string :=
  match v with
  | JNull => "null"
  | JBool _ => "bool"
  | JNumber _ => "number"
  | JString _ => "string"
  | JArray _ => "array"
  | JObject _ => "object"
  end.

(** Case folding of object keys: ASCII letters, and the two other runes
    that fold to an ASCII letter, the Kelvin sign (U+212A, for k) and the
    long s (U+017F, for s), in their UTF-8 encoding. *)
Definition lower (c : ascii) : ascii :=
  let n := nat_of_ascii c in
  if (Nat.leb 65 n && Nat.leb n 90)%bool then ascii_of_nat (n + 32) else c.

Fixpoint foldName (s : string) : string :=
  match s with
  | EmptyString => EmptyString
  | String c rest =>
      match nat_of_ascii c, rest with
      | 197%nat, String d rest' =>
          if Nat.eqb (nat_of_ascii d) 191 then String "s"%char (foldName rest')
          else String c (foldName rest)
      | 226%nat, String d (String e rest') =>
          if (Nat.eqb (nat_of_ascii d) 132 && Nat.eqb (nat_of_ascii e) 170)%bool
          then String "k"%char (foldName rest')
          else String c (foldName rest)
      | _, _ => String (lower c) (foldName rest)
      end
  end.

Definition equalFold (a b : string) : bool := String.eqb (foldName a) (foldName b).

(** The target of one struct field: its Go kind and the assignment. *)
Inductive fieldTarget : Type :=
| StringField (store : string -> clusterHealthResponse -> clusterHealthResponse)
| BoolField (store : bool -> clusterHealthResponse -> clusterHealthResponse)
| IntField (store : Z -> clusterHealthResponse -> clusterHealthResponse).

Record structField : Type := mkField { f_name : string; f_target : fieldTarget }.

Definition GoType_of (t : fieldTarget) : string :=
  match t with
  | StringField _ => "string"
  | BoolField _ => "bool"
  | IntField _ => "int"
  end.

(** Modelled from the spec: the JSON names of the fields, from the table of
    the expected response body. *)
Definition clusterHealthResponse_fields : list structField :=
  [ mkField "cluster_name" (StringField Store.ClusterName);
    mkField "status" (StringField Store.Status);
    mkField "timed_out" (BoolField Store.TimedOut);
    mkField "active_primary_shards" (IntField Store.ActivePrimaryShards);
    mkField "active_shards" (IntField Store.ActiveShards);
    mkField "delayed_unassigned_shards" (IntField Store.DelayedUnassignedShards);
    mkField "initializing_shards" (IntField Store.InitializingShards);
    mkField "number_of_data_nodes" (IntField Store.NumberOfDataNodes);
    mkField "number_of_in_flight_fetch" (IntField Store.NumberOfInFlightFetch);
    mkField "number_of_nodes" (IntField Store.NumberOfNodes);
    mkField "number_of_pending_tasks" (IntField Store.NumberOfPendingTasks);
    mkField "relocating_shards" (IntField Store.RelocatingShards);
    mkField "unassigned_shards" (IntField Store.UnassignedShards) ].

Definition structName : string := "clusterHealthResponse".

(** An exact match of the key wins, otherwise the first field whose name
    equals the key under case folding; a key that matches no field is
    ignored. *)
Definition lookupField (key : string) : option structField :=
  match find (fun f => String.eqb (f_name f) key) clusterHealthResponse_fields with
  | Some f => Some f
  | None => find (fun f => equalFold (f_name f) key) clusterHealthResponse_fields
  end.

(** The decoder state while an object is stored: the target so far and the
    first type error met ([d.savedError]). *)
Definition decodeState : Type := (clusterHealthResponse * option error)%type.

Definition saveError (e : error) (d : decodeState) : decodeState :=
  match snd d with
  | None => (fst d, Some e)
  | Some _ => d
  end.

(** Storing one member value into the field it names.  [null] leaves a
    string, a boolean and an integer as they are; a number is stored into an
    integer field when [strconv.ParseInt] accepts its literal. *)
Definition storeField (f : structField) (v : json_Value) (d : decodeState) : decodeState :=
  let mismatch (what : string) :=
    saveError (json_UnmarshalTypeError what (GoType_of (f_target f))
                 structName (f_name f)) d in
  match v, f_target f with
  | JNull, _ => d
  | JString s, StringField store => (store s (fst d), snd d)
  | JBool b, BoolField store => (store b (fst d), snd d)
  | JNumber lit, IntField store =>
      match strconv_ParseInt lit with
      | Some n => (store n (fst d), snd d)
      | None => mismatch ("number " ++ lit)%string
      end
  | _, _ => mismatch (json_kind v)
  end.

Definition storeMember (d : decodeState) (kv : string * json_Value) : decodeState :=
  match lookupField (fst kv) with
  | Some f => storeField f (snd kv) d
  | None => d
  end.

(** Storing a JSON value into [chr]: the members of an object in the order
    they are written, [null] is a no-op, any other value is a type error. *)
Definition unmarshal (v : json_Value) (chr : clusterHealthResponse) : decodeState :=
  match v with
  | JNull => (chr, None)
  | JObject members => fold_left storeMember members (chr, None)
  | _ => (chr, Some (json_UnmarshalTypeError (json_kind v) ("collector." ++ structName) "" ""))
  end.

(** [Decode(&chr)]: the record as the decoder left it, and the error. *)
Definition Decode (body : Body) (chr : clusterHealthResponse) : decodeState :=
  match body with
  | BodyUnreadable e => (chr, Some e)
  | BodyJSON v => unmarshal v chr
  end.

(* ================================================================== *)
(** ** The outside world: URLs, HTTP, the clock *)

Record Userinfo : Type := mkUserinfo {
  username : string; password : string; passwordSet : bool
}.

(** [url.URL]. *)
Record URL : Type := mkURL {
  Scheme : string;
  Opaque : string;
  User : option Userinfo;
  Host : string;
  Path : string;
  RawPath : string;
  ForceQuery : bool;
  RawQuery : string;
  Fragment : string
}.

(** The assignment [u.Path = p] on a URL value. *)
Definition set_Path (p : string) (u : URL) : URL :=
  mkURL (Scheme u) (Opaque u) (User u) (Host u) p (RawPath u)
        (ForceQuery u) (RawQuery u) (Fragment u).

Record Response : Type := mkResponse { StatusCode : Z; ResponseBody : Body }.

Definition http_StatusOK : Z := 200.

(** A reading of [time.Now()]: the wall clock in seconds since 1970 and the
    monotonic clock in nanoseconds. *)
Record Time : Type := mkTime { Unix : Z; monotonic : Z }.

Definition Duration : Type := Z.
Definition Second : Duration := 1000000000.

(** [t.Sub(u)] on two readings that carry the monotonic clock: the
    difference, saturated to the range of [Duration]. *)
Definition Sub (t u : Time) : Duration :=
  Z.max minInt64 (Z.min maxInt64 (monotonic t - monotonic u)).

(** [d.Seconds()]. *)
Definition Seconds (d : Duration) : float64 :=
  let sec := Z.quot d Second in
  let nsec := Z.rem d Second in
  PrimFloat.add (float64_of_int sec)
                (PrimFloat.div (float64_of_int nsec) (float64_of_int 1000000000)).

(** What the world does during one call of [Collect]: the answer of
    [c.client.Get] to a request, and the three readings of the clock
    ([time.Now()] at the start, [time.Now()] for the timestamp, and the
    reading inside [time.Since]). *)
Record Env : Type := mkEnv {
  http_Get : string -> Response + error;
  now_begun : Time;
  now_timestamp : Time;
  now_since : Time
}.

(* ================================================================== *)
(** ** The metrics library *)

Module prometheus.

Inductive ValueType : Type := CounterValue | GaugeValue | UntypedValue.

Definition Labels : Type := list (string * string).

(** A descriptor.  Its identity is its fully-qualified name together
    with the values of its constant labels. *)
Record Desc : Type := mkDesc {
  fqName : string;
  help : string;
  constLabels : Labels;
  variableLabels : list string
}.

Definition NewDesc (fqName help : string) (variableLabels : list string)
           (constLabels : Labels) : Desc :=
  mkDesc fqName help constLabels variableLabels.

Definition Desc_id (d : Desc) : string * list string :=
  (fqName d, map snd (constLabels d)).

Definition nonempty (s : string) : bool :=
  match s with EmptyString => false | _ => true end.

Definition BuildFQName (namespace subsystem name : string) : string :=
  if negb (nonempty name) then ""
  else if nonempty namespace && nonempty subsystem
       then namespace ++ "_" ++ subsystem ++ "_" ++ name
  else if nonempty namespace then namespace ++ "_" ++ name
  else if nonempty subsystem then subsystem ++ "_" ++ name
  else name.

(** One sample as the registry receives it. *)
Record Metric : Type := mkMetric {
  metricDesc : Desc;
  metricType : ValueType;
  metricValue : float64;
  labelValues : list string
}.

(** [MustNewConstMetric] panics ([None]) when the number of label values
    differs from the number of variable labels of the descriptor. *)
Definition MustNewConstMetric (desc : Desc) (valueType : ValueType)
           (value : float64) (labelValues : list string) : option Metric :=
  if Nat.eqb (List.length labelValues) (List.length (variableLabels desc))
  then Some (mkMetric desc valueType value labelValues)
  else None.

Record Opts : Type := mkOpts {
  Namespace : string; Subsystem : string; Name : string;
  Help : string; ConstLabels : Labels
}.

Definition Desc_of_Opts (o : Opts) : Desc :=
  NewDesc (BuildFQName (Namespace o) (Subsystem o) (Name o)) (Help o) [] (ConstLabels o).

(** A counter is the number of times [Inc] was called on it; a gauge is
    the last value that was [Set]. *)
Record Counter : Type := mkCounter { counterDesc : Desc; count : N }.
Record Gauge : Type := mkGauge { gaugeDesc : Desc; gaugeValue : float64 }.

Definition NewCounter (o : Opts) : Counter := mkCounter (Desc_of_Opts o) 0%N.
Definition NewGauge (o : Opts) : Gauge := mkGauge (Desc_of_Opts o) 0%float.

Definition Inc (c : Counter) : Counter := mkCounter (counterDesc c) (count c + 1)%N.
Definition Set_ (v : float64) (g : Gauge) : Gauge := mkGauge (gaugeDesc g) v.

(** What [Collect(ch)] of a counter or a gauge sends: the metric, read
    here at the time it is sent. *)
Definition Counter_sample (c : Counter) : Metric :=
  mkMetric (counterDesc c) CounterValue (float64_of_int (Z.of_N (count c))) [].
Definition Gauge_sample (g : Gauge) : Metric :=
  mkMetric (gaugeDesc g) GaugeValue (gaugeValue g) [].

End prometheus.
Import prometheus.

(* ================================================================== *)
(** ** The collector *)

Definition namespace : string := "elasticsearch".

Definition colors : list string := ["green"; "yellow"; "red"].
Definition defaultClusterHealthLabels : list string := ["cluster"].

Record clusterHealthMetric : Type := mkClusterHealthMetric {
  m_Type : ValueType;
  m_Desc : Desc;
  m_Value : clusterHealthResponse -> float64
}.

Record clusterHealthStatusMetric : Type := mkClusterHealthStatusMetric {
  s_Type : ValueType;
  s_Desc : Desc;
  s_Value : clusterHealthResponse -> string -> float64;
  s_Labels : option (string -> string -> list string)
}.

Definition subsystem : string := "cluster_health".

(** The table [metrics] that [NewClusterHealth] builds. *)
Definition clusterHealthMetrics : list clusterHealthMetric :=
  [ mkClusterHealthMetric GaugeValue
      (NewDesc (BuildFQName namespace subsystem "active_primary_shards")
         "Tthe number of primary shards in your cluster. This is an aggregate total across all indices."
         defaultClusterHealthLabels [])
      (fun clusterHealth => float64_of_int (ActivePrimaryShards clusterHealth));
    mkClusterHealthMetric GaugeValue
      (NewDesc (BuildFQName namespace subsystem "active_shards")
         "Aggregate total of all shards across all indices, which includes replica shards."
         defaultClusterHealthLabels [])
      (fun clusterHealth => float64_of_int (ActiveShards clusterHealth));
    mkClusterHealthMetric GaugeValue
      (NewDesc (BuildFQName namespace subsystem "delayed_unassigned_shards")
         "Shards delayed to reduce reallocation overhead"
         defaultClusterHealthLabels [])
      (fun clusterHealth => float64_of_int (DelayedUnassignedShards clusterHealth));
    mkClusterHealthMetric GaugeValue
      (NewDesc (BuildFQName namespace subsystem "initializing_shards")
         "Count of shards that are being freshly created."
         defaultClusterHealthLabels [])
      (fun clusterHealth => float64_of_int (InitializingShards clusterHealth));
    mkClusterHealthMetric GaugeValue
      (NewDesc (BuildFQName namespace subsystem "number_of_data_nodes")
         "Number of data nodes in the cluster."
         defaultClusterHealthLabels [])
      (fun clusterHealth => float64_of_int (NumberOfDataNodes clusterHealth));
    mkClusterHealthMetric GaugeValue
      (NewDesc (BuildFQName namespace subsystem "number_of_in_flight_fetch")
         "The number of ongoing shard info requests."
         defaultClusterHealthLabels [])
      (fun clusterHealth => float64_of_int (NumberOfInFlightFetch clusterHealth));
    mkClusterHealthMetric GaugeValue
      (NewDesc (BuildFQName namespace subsystem "number_of_nodes")
         "Number of nodes in the cluster."
         defaultClusterHealthLabels [])
      (fun clusterHealth => float64_of_int (NumberOfNodes clusterHealth));
    mkClusterHealthMetric GaugeValue
      (NewDesc (BuildFQName namespace subsystem "number_of_pending_tasks")
         "Cluster level changes which have not yet been executed"
         defaultClusterHealthLabels [])
      (fun clusterHealth => float64_of_int (NumberOfPendingTasks clusterHealth));
    mkClusterHealthMetric GaugeValue
      (NewDesc (BuildFQName namespace subsystem "relocating_shards")
         "The number of shards that are currently moving from one node to another node."
         defaultClusterHealthLabels [])
      (fun clusterHealth => float64_of_int (RelocatingShards clusterHealth));
    mkClusterHealthMetric GaugeValue
      (NewDesc (BuildFQName namespace subsystem "timed_out")
         "Number of cluster health checks timed out"
         defaultClusterHealthLabels [])
      (fun clusterHealth => if TimedOut clusterHealth then 1%float else 0%float);
    mkClusterHealthMetric GaugeValue
      (NewDesc (BuildFQName namespace subsystem "unassigned_shards")
         "The number of shards that exist in the cluster state, but cannot be found in the cluster itself."
         defaultClusterHealthLabels [])
      (fun clusterHealth => float64_of_int (UnassignedShards clusterHealth)) ].

(** The [statusMetric] that [NewClusterHealth] builds; its [Labels] field
    is left nil. *)
Definition clusterHealthStatus : clusterHealthStatusMetric :=
  mkClusterHealthStatusMetric GaugeValue
    (NewDesc (BuildFQName namespace subsystem "status")
       "Whether all primary and replica shards are allocated."
       ["cluster"; "color"] [])
    (fun clusterHealth color =>
       if String.eqb (Status clusterHealth) color then 1%float else 0%float)
    None.

(** Everything a collector call does to the outside, in the order it is
    done. *)
Inductive logValue : Type := LogString (s : string) | LogError (e : error).

Inductive Event : Type :=
| EvInc (d : Desc)                      (* Inc() of a counter *)
| EvSet (d : Desc) (v : float64)        (* Set(v) of a gauge *)
| EvGet (target : string)               (* c.client.Get(target) *)
| EvDecode                              (* Decode(&chr) reads the body *)
| EvClose                               (* res.Body.Close() *)
| EvLog (level : string) (keyvals : list (string * logValue))
| EvDescribe (d : Desc)                 (* ch <- desc, in Describe *)
| EvSend (m : Metric).                  (* ch <- metric, in Collect *)

Section Collector.

(** The logger and the HTTP client are handles the collector only passes
    on; [url.URL.String] is the rendering of the standard library. *)
Variables Logger Client : Type.
Variable URL_String : URL -> string.

Record ClusterHealth : Type := mkClusterHealth {
  logger : Logger;
  client : Client;
  url : URL;
  metrics : list clusterHealthMetric;
  statusMetric : clusterHealthStatusMetric;
  totalScrapesMetric : Counter;
  totalScrapeErrorsMetric : Counter;
  lastScrapeErrorMetric : Gauge;
  lastScrapeTimestampMetric : Gauge;
  lastScrapeDurationSecondsMetric : Gauge
}.

Definition metaOpts (name help : string) (u : URL) : Opts :=
  mkOpts namespace "cluster_health" name help [("url", URL_String u)].

Definition NewClusterHealth (logger : Logger) (client : Client) (url : URL)
  : ClusterHealth :=
  mkClusterHealth logger client url
    clusterHealthMetrics
    clusterHealthStatus
    (NewCounter (metaOpts "scrapes_total"
       "Total number of times ElasticSearch cluster health was scraped for metrics." url))
    (NewCounter (metaOpts "scrape_errors_total"
       "Total number of times an error occured scraping ElasticSearch cluster health." url))
    (NewGauge (metaOpts "last_scrape_error"
       "Whether the last scrape of metrics from ElasticSearch cluster health resulted in an error (1 for error, 0 for success)." url))
    (NewGauge (metaOpts "last_scrape_timestamp"
       "Number of seconds since 1970 since last scrape from ElasticSearch cluster health." url))
    (NewGauge (metaOpts "last_scrape_duration_seconds"
       "Duration of the last scrape from ElasticSearch cluster health." url)).

(** *** The monad of a collector method

    A method runs on the collector state, may panic ([None]), and
    otherwise yields its result, the state it leaves and the events it
    caused. *)
Definition M (A : Type) : Type :=
  ClusterHealth -> option (A * ClusterHealth * list Event).

Definition ret {A : Type} (a : A) : M A := fun c => Some (a, c, []).

Definition bind {A B : Type} (m : M A) (k : A -> M B) : M B :=
  fun c =>
    match m c with
    | None => None
    | Some (a, c1, t1) =>
        match k a c1 with
        | None => None
        | Some (b, c2, t2) => Some (b, c2, t1 ++ t2)
        end
    end.

Definition emit (e : Event) : M unit := fun c => Some (tt, c, [e]).
Definition panic {A : Type} : M A := fun _ => None.
Definition read {A : Type} (field : ClusterHealth -> A) : M A :=
  fun c => Some (field c, c, []).
Definition write (update : ClusterHealth -> ClusterHealth) : M unit :=
  fun c => Some (tt, update c, []).

Notation "x <- m ;; k" := (bind m (fun x => k))
  (at level 61, m at next level, right associativity).
Notation "m ;; k" := (bind m (fun _ => k))
  (at level 61, right associativity).

(** [for _, x := range l { body }]. *)
Fixpoint range {A : Type} (l : list A) (body : A -> M unit) : M unit :=
  match l with
  | [] => ret tt
  | x :: rest => body x ;; range rest body
  end.

(** [defer d] at the head of [body]. *)
Definition defer {A : Type} (d : M unit) (body : M A) : M A :=
  r <- body ;; d ;; ret r.

(** [ch <- prometheus.MustNewConstMetric(...)]. *)
Definition send_const (desc : Desc) (valueType : ValueType) (value : float64)
           (labelValues : list string) : M unit :=
  match MustNewConstMetric desc valueType value labelValues with
  | Some m => emit (EvSend m)
  | None => panic
  end.

(** *** The meta-metrics as places in the collector state *)
Record place (T : Type) : Type := mkPlace {
  load : ClusterHealth -> T;
  store : T -> ClusterHealth -> ClusterHealth
}.
Arguments load {T}.
Arguments store {T}.

Definition totalScrapes : place Counter :=
  mkPlace _ totalScrapesMetric
    (fun v c => mkClusterHealth (logger c) (client c) (url c) (metrics c)
       (statusMetric c) v (totalScrapeErrorsMetric c) (lastScrapeErrorMetric c)
       (lastScrapeTimestampMetric c) (lastScrapeDurationSecondsMetric c)).
Definition totalScrapeErrors : place Counter :=
  mkPlace _ totalScrapeErrorsMetric
    (fun v c => mkClusterHealth (logger c) (client c) (url c) (metrics c)
       (statusMetric c) (totalScrapesMetric c) v (lastScrapeErrorMetric c)
       (lastScrapeTimestampMetric c) (lastScrapeDurationSecondsMetric c)).
Definition lastScrapeError : place Gauge :=
  mkPlace _ lastScrapeErrorMetric
    (fun v c => mkClusterHealth (logger c) (client c) (url c) (metrics c)
       (statusMetric c) (totalScrapesMetric c) (totalScrapeErrorsMetric c) v
       (lastScrapeTimestampMetric c) (lastScrapeDurationSecondsMetric c)).
Definition lastScrapeTimestamp : place Gauge :=
  mkPlace _ lastScrapeTimestampMetric
    (fun v c => mkClusterHealth (logger c) (client c) (url c) (metrics c)
       (statusMetric c) (totalScrapesMetric c) (totalScrapeErrorsMetric c)
       (lastScrapeErrorMetric c) v (lastScrapeDurationSecondsMetric c)).
Definition lastScrapeDurationSeconds : place Gauge :=
  mkPlace _ lastScrapeDurationSecondsMetric
    (fun v c => mkClusterHealth (logger c) (client c) (url c) (metrics c)
       (statusMetric c) (totalScrapesMetric c) (totalScrapeErrorsMetric c)
       (lastScrapeErrorMetric c) (lastScrapeTimestampMetric c) v).

Definition Counter_Inc (p : place Counter) : M unit :=
  k <- read (load p) ;;
  write (store p (Inc k)) ;;
  emit (EvInc (counterDesc k)).

Definition Counter_Collect (p : place Counter) : M unit :=
  k <- read (load p) ;; emit (EvSend (Counter_sample k)).

Definition Gauge_Set (p : place Gauge) (v : float64) : M unit :=
  g <- read (load p) ;;
  write (store p (Set_ v g)) ;;
  emit (EvSet (gaugeDesc g) v).

Definition Gauge_Collect (p : place Gauge) : M unit :=
  g <- read (load p) ;; emit (EvSend (Gauge_sample g)).

(** *** Describe *)
Definition Describe : M unit :=
  ms <- read metrics ;;
  range ms (fun metric => emit (EvDescribe (m_Desc metric))) ;;
  sm <- read statusMetric ;;
  emit (EvDescribe (s_Desc sm)).

(** *** fetchAndDecodeClusterHealth *)
Definition fetchAndDecodeClusterHealth (env : Env)
  : M (clusterHealthResponse * option error) :=
  let chr := zero_clusterHealthResponse in
  u <- read url ;;                                   (* u := *c.url *)
  let u := set_Path "/_cluster/health" u in
  emit (EvGet (URL_String u)) ;;
  match http_Get env (URL_String u) with
  | inr err =>
      ret (chr, Some (fmt_Errorf ("failed to get cluster health from "
                                    ++ URL_String u ++ ": " ++ Error err)))
  | inl res =>
      defer (emit EvClose)
        (if negb (StatusCode res =? http_StatusOK) then
           ret (chr, Some (fmt_Errorf ("HTTP Request failed with code "
                                         ++ strconv_Itoa (StatusCode res))))
         else
           emit EvDecode ;;
           let '(chr, err) := Decode (ResponseBody res) chr in
           match err with
           | Some err => ret (chr, Some err)
           | None => ret (chr, None)
           end)
  end.

(** *** Collect *)
Definition Collect (env : Env) : M unit :=
  let begun := now_begun env in
  let scrapeError := 0 in
  Counter_Inc totalScrapes ;;
  fetched <- fetchAndDecodeClusterHealth env ;;
  let '(clusterHealthResponse, err) := fetched in
  scrapeError <-
    match err with
    | Some err =>
        emit (EvLog "warn"
                [("msg", LogString "failed to fetch and decode cluster health");
                 ("err", LogError err)]) ;;
        Counter_Inc totalScrapeErrors ;;
        ret 1
    | None => ret scrapeError
    end ;;
  ms <- read metrics ;;
  range ms (fun metric =>
    send_const (m_Desc metric) (m_Type metric)
               (m_Value metric clusterHealthResponse)
               [ClusterName clusterHealthResponse]) ;;
  sm <- read statusMetric ;;
  range colors (fun color =>
    send_const (s_Desc sm) (s_Type sm)
               (s_Value sm clusterHealthResponse color)
               [ClusterName clusterHealthResponse; color]) ;;
  Counter_Collect totalScrapes ;;
  Counter_Collect totalScrapeErrors ;;
  Gauge_Set lastScrapeError (float64_of_int scrapeError) ;;
  Gauge_Collect lastScrapeError ;;
  Gauge_Set lastScrapeTimestamp (float64_of_int (Unix (now_timestamp env))) ;;
  Gauge_Collect lastScrapeTimestamp ;;
  Gauge_Set lastScrapeDurationSeconds (Seconds (Sub (now_since env) begun)) ;;
  Gauge_Collect lastScrapeDurationSeconds.

(** The record and the error that the fetch of a call hands to its
    caller. *)
Definition fetched (env : Env) (c : ClusterHealth)
  : option (clusterHealthResponse * option error) :=
  match fetchAndDecodeClusterHealth env c with
  | Some (r, _, _) => Some r
  | None => None
  end.

(** The collector states a program can see: a fresh collector, and the
    state any completed call leaves. *)
Inductive Reachable : ClusterHealth -> Prop :=
| Reachable_New (lg : Logger) (cl : Client) (u : URL) :
    Reachable (NewClusterHealth lg cl u)
| Reachable_Describe (c c' : ClusterHealth) (tr : list Event) :
    Reachable c -> Describe c = Some (tt, c', tr) -> Reachable c'
| Reachable_Collect (env : Env) (c c' : ClusterHealth) (tr : list Event) :
    Reachable c -> Collect env c = Some (tt, c', tr) -> Reachable c'.

(** The collector of [NewClusterHealth lg cl u] with the values its five
    meta-metrics hold at some later time. *)
Definition at_values (lg : Logger) (cl : Client) (u : URL)
           (scrapes errors : N) (lastError lastTimestamp lastDuration : float64)
  : ClusterHealth :=
  let c := NewClusterHealth lg cl u in
  mkClusterHealth lg cl u (metrics c) (statusMetric c)
    (mkCounter (counterDesc (totalScrapesMetric c)) scrapes)
    (mkCounter (counterDesc (totalScrapeErrorsMetric c)) errors)
    (mkGauge (gaugeDesc (lastScrapeErrorMetric c)) lastError)
    (mkGauge (gaugeDesc (lastScrapeTimestampMetric c)) lastTimestamp)
    (mkGauge (gaugeDesc (lastScrapeDurationSecondsMetric c)) lastDuration).

End Collector.

Arguments logger {Logger Client} c.
Arguments client {Logger Client} c.
Arguments url {Logger Client} c.
Arguments metrics {Logger Client} c.
Arguments statusMetric {Logger Client} c.
Arguments totalScrapesMetric {Logger Client} c.
Arguments totalScrapeErrorsMetric {Logger Client} c.
Arguments lastScrapeErrorMetric {Logger Client} c.
Arguments lastScrapeTimestampMetric {Logger Client} c.
Arguments lastScrapeDurationSecondsMetric {Logger Client} c.
Arguments NewClusterHealth {Logger Client} URL_String logger client url.
Arguments Describe {Logger Client} c.
Arguments fetchAndDecodeClusterHealth {Logger Client} URL_String env c.
Arguments Collect {Logger Client} URL_String env c.
Arguments fetched {Logger Client} URL_String env c.
Arguments Reachable {Logger Client} URL_String c.
Arguments at_values {Logger Client} URL_String lg cl u
  scrapes errors lastError lastTimestamp lastDuration.
Arguments M Logger Client A : clear implicits.
Arguments ret {Logger Client A} a c.
Arguments bind {Logger Client A B} m k c.
Arguments float64_of_int n : simpl never.
Arguments Seconds d : simpl never.
Arguments Sub t u : simpl never.

(* ================================================================== *)
(** ** Reading a trace *)

Definition sent (tr : list Event) : list Metric :=
  flat_map (fun e => match e with EvSend m => [m] | _ => [] end) tr.

Definition described (tr : list Event) : list Desc :=
  flat_map (fun e => match e with EvDescribe d => [d] | _ => [] end) tr.

Definition requests (tr : list Event) : list string :=
  flat_map (fun e => match e with EvGet target => [target] | _ => [] end) tr.

Definition is_Get (e : Event) : bool :=
  match e with EvGet _ => true | _ => false end.

Definition is_Decode (e : Event) : bool :=
  match e with EvDecode => true | _ => false end.

Definition is_Inc_of (name : string) (e : Event) : bool :=
  match e with EvInc d => String.eqb (fqName d) name | _ => false end.

(** The samples of a descriptor, by its fully-qualified name. *)
Definition samples_of (name : string) (ms : list Metric) : list Metric :=
  filter (fun m => String.eqb (fqName (metricDesc m)) name) ms.

Definition fq (name : string) : string := BuildFQName namespace subsystem name.

(** The sum of the values of a list of samples. *)
Definition total (ms : list Metric) : float64 :=
  fold_left (fun acc m => PrimFloat.add acc (metricValue m)) ms 0%float.

(** The name and the label values of a sample. *)
Definition sample_key (m : Metric) : string * list string :=
  (fqName (metricDesc m), labelValues m).

(** The sum of the status value function over the known colors. *)
Definition status_sum (sm : clusterHealthStatusMetric) (chr : clusterHealthResponse)
  : float64 :=
  fold_left (fun acc color => PrimFloat.add acc (s_Value sm chr color)) colors 0%float.

Definition is_known_color (s : string) : bool := existsb (String.eqb s) colors.

Definition is_type_error (e : error) : bool :=
  match e with json_UnmarshalTypeError _ _ _ _ => true | _ => false end.

Definition failed (err : option error) : bool :=
  match err with Some _ => true | None => false end.

(** The flag of a scrape error as a sample value. *)
Definition flag (b : bool) : float64 := if b then 1%float else 0%float.

(** The request a fetch of the collector with base URL [u] issues. *)
Definition health_url (u : URL) : URL := set_Path "/_cluster/health" u.

(** A failure that ends the fetch before anything is stored into the
    record: every error except the type mismatch of a JSON value. *)
Definition failed_early (err : option error) : bool :=
  match err with Some e => negb (is_type_error e) | None => false end.

(** Whether the request was answered with status 200. *)
Definition answered_200 (answer : Response + error) : bool :=
  match answer with inl res => StatusCode res =? http_StatusOK | inr _ => false end.

(* ================================================================== *)
(** ** Concrete scrapes

    A collector for [http://localhost:9200] and four answers of the
    cluster: a healthy one, an object without a status, an object whose node
    count is a string, and an internal server error. *)

(** The rendering of a URL that has a scheme, a host and a path only. *)
Definition render_plain (u : URL) : string := Scheme u ++ "://" ++ Host u ++ Path u.

Definition base_url : URL := mkURL "http" "" None "localhost:9200" "" "" false "" "".

Definition fresh : ClusterHealth unit unit := NewClusterHealth render_plain tt tt base_url.

Definition answering (answer : Response + error) : Env :=
  mkEnv (fun _ => answer) (mkTime 1500000000 5000000000)
        (mkTime 1500000001 6000000000) (mkTime 1500000001 6500000000).

Definition body_green : Body :=
  BodyJSON (JObject [("cluster_name", JString "es1"); ("status", JString "green");
                     ("timed_out", JBool false);
                     ("active_primary_shards", JNumber "5");
                     ("active_shards", JNumber "10")]).

Definition body_no_status : Body :=
  BodyJSON (JObject [("cluster_name", JString "es1")]).

Definition body_mismatch : Body :=
  BodyJSON (JObject [("cluster_name", JString "es1"); ("status", JString "green");
                     ("number_of_nodes", JString "3")]).

Definition env_green : Env := answering (inl (mkResponse 200 body_green)).
Definition env_no_status : Env := answering (inl (mkResponse 200 body_no_status)).
Definition env_mismatch : Env := answering (inl (mkResponse 200 body_mismatch)).
Definition env_500 : Env := answering (inl (mkResponse 500 body_green)).
Definition env_refused : Env :=
  answering (inr (transportError "dial tcp 127.0.0.1:9200: connect: connection refused")).

Definition record_mismatch : clusterHealthResponse :=
  Store.Status "green" (Store.ClusterName "es1" zero_clusterHealthResponse).

(** The state one scrape of the healthy cluster leaves. *)
Definition scraped_once : ClusterHealth unit unit :=
  match Collect render_plain env_green fresh with
  | Some (_, c', _) => c'
  | None => fresh
  end.

(** The records the decoder builds from the healthy answer and from the
    answer without a status. *)
Definition record_green : clusterHealthResponse :=
  Store.ActiveShards 10
    (Store.ActivePrimaryShards 5
       (Store.Status "green" (Store.ClusterName "es1" zero_clusterHealthResponse))).

Definition record_no_status : clusterHealthResponse :=
  Store.ClusterName "es1" zero_clusterHealthResponse.

Definition mismatch_error : error :=
  json_UnmarshalTypeError "string" "int" "clusterHealthResponse" "number_of_nodes".

Definition status_500_error : error := errorString "HTTP Request failed with code 500".

(* ================================================================== *)
(** ** Runs of scrapes, and further readings of a trace and of a body *)

Section Runs.

Variables Logger Client : Type.
Variable URL_String : URL -> string.

(** Whether the fetch of a call on [c] under [env] returns an error. *)
Definition fetch_fails (env : Env) (c : ClusterHealth Logger Client) : bool :=
  match fetched URL_String env c with
  | Some (_, err) => failed err
  | None => false
  end.

(** Successive calls of Collect, one environment per call. *)
Fixpoint scrapes (envs : list Env) (c : ClusterHealth Logger Client)
  : option (ClusterHealth Logger Client) :=
  match envs with
  | [] => Some c
  | env :: rest =>
      match Collect URL_String env c with
      | Some (_, c', _) => scrapes rest c'
      | None => None
      end
  end.

End Runs.

Arguments fetch_fails {Logger Client} URL_String env c.
Arguments scrapes {Logger Client} URL_String envs c.

(** The records written to the logger. *)
Definition logged (tr : list Event) : list (string * list (string * logValue)) :=
  flat_map (fun e => match e with EvLog level keyvals => [(level, keyvals)] | _ => [] end) tr.

Definition is_Close (e : Event) : bool :=
  match e with EvClose => true | _ => false end.

(** Whether the key of an object member names a field of the record. *)
Definition known_key (kv : string * json_Value) : bool :=
  match lookupField (fst kv) with Some _ => true | None => false end.

(** Whether storing an object member raises no type error. *)
Definition fits (kv : string * json_Value) : bool :=
  negb (failed (snd (storeMember (zero_clusterHealthResponse, None) kv))).

(** A JSON value that holds nothing for the record: [null], or an object
    none of whose keys names a field. *)
Definition blank (v : json_Value) : bool :=
  match v with
  | JNull => true
  | JObject members => forallb (fun kv => negb (known_key kv)) members
  | _ => false
  end.

(** More answers of the cluster: an object whose status key and value are
    written in another case, an object of another service, a complete
    health object, and a not-found response. *)
Definition body_upper : Body :=
  BodyJSON (JObject [("cluster_name", JString "es1"); ("STATUS", JString "Green")]).

Definition body_other_service : Body :=
  BodyJSON (JObject [("error", JString "no handler found");
                     ("code", JNumber "200")]).

Definition body_full : Body :=
  BodyJSON (JObject
    [("cluster_name", JString "es1"); ("status", JString "yellow");
     ("timed_out", JBool true);
     ("active_primary_shards", JNumber "5"); ("active_shards", JNumber "10");
     ("delayed_unassigned_shards", JNumber "1"); ("initializing_shards", JNumber "2");
     ("number_of_data_nodes", JNumber "3"); ("number_of_in_flight_fetch", JNumber "4");
     ("number_of_nodes", JNumber "6"); ("number_of_pending_tasks", JNumber "7");
     ("relocating_shards", JNumber "8"); ("unassigned_shards", JNumber "9")]).

Definition body_two_mismatches : Body :=
  BodyJSON (JObject [("timed_out", JString "no"); ("cluster_name", JString "es1");
                     ("number_of_nodes", JNumber "3.5"); ("active_shards", JNumber "10")]).

Definition env_upper : Env := answering (inl (mkResponse 200 body_upper)).
Definition env_other_service : Env := answering (inl (mkResponse 200 body_other_service)).
Definition env_full : Env := answering (inl (mkResponse 200 body_full)).
Definition env_404 : Env := answering (inl (mkResponse 404 body_other_service)).

Definition record_upper : clusterHealthResponse :=
  Store.Status "Green" (Store.ClusterName "es1" zero_clusterHealthResponse).

Definition record_full : clusterHealthResponse :=
  mkClusterHealthResponse "es1" "yellow" true 5 10 1 2 3 4 6 7 8 9.

(* ================================================================== *)
(** ** Properties *)

Lemma float_one_not_zero : 1%float <> 0%float.
Proof.
  intro H. apply (f_equal (fun x => PrimFloat.eqb x 0%float)) in H.
  vm_compute in H. discriminate.
Qed.

Lemma flag_one (b : bool) : flag b = 1%float <-> b = true.
Proof.
  destruct b; simpl; split; intro H; try reflexivity; try discriminate;
    symmetry in H; destruct (float_one_not_zero H).
Qed.

Section Properties.

Variables Logger Client : Type.
Variable URL_String : URL -> string.

#[local] Abbreviation CH := (ClusterHealth Logger Client).
#[local] Abbreviation target c := (URL_String (health_url (url c))).

(** *** Running the monad *)

Lemma bind_run {A B : Type} (m : M Logger Client A) (k : A -> M Logger Client B)
      (c c1 c2 : CH) (a : A) (b : B) (t1 t2 : list Event) :
  m c = Some (a, c1, t1) -> k a c1 = Some (b, c2, t2) ->
  bind m k c = Some (b, c2, (t1 ++ t2)%list).
Proof. intros H1 H2. unfold bind. rewrite H1, H2. reflexivity. Qed.

(** *** The fetch *)

(** The outcome of a fetch by cases on the answer to the request. *)
Lemma fetch_transport env (c : CH) (e : error) :
  http_Get env (target c) = inr e ->
  fetchAndDecodeClusterHealth URL_String env c =
    Some ((zero_clusterHealthResponse,
           Some (fmt_Errorf ("failed to get cluster health from " ++ target c
                               ++ ": " ++ Error e))),
          c, [EvGet (target c)]).
Proof.
  intro G. unfold fetchAndDecodeClusterHealth, bind, read, emit, ret.
  fold (health_url (url c)). rewrite G. reflexivity.
Qed.

Lemma fetch_status env (c : CH) (res : Response) :
  http_Get env (target c) = inl res ->
  StatusCode res <> http_StatusOK ->
  fetchAndDecodeClusterHealth URL_String env c =
    Some ((zero_clusterHealthResponse,
           Some (fmt_Errorf ("HTTP Request failed with code "
                               ++ strconv_Itoa (StatusCode res)))),
          c, [EvGet (target c); EvClose]).
Proof.
  intros G Hc. apply Z.eqb_neq in Hc.
  unfold fetchAndDecodeClusterHealth, defer, bind, read, emit, ret.
  fold (health_url (url c)). rewrite G, Hc. reflexivity.
Qed.

Lemma fetch_decode env (c : CH) (res : Response) :
  http_Get env (target c) = inl res ->
  StatusCode res = http_StatusOK ->
  fetchAndDecodeClusterHealth URL_String env c =
    Some (Decode (ResponseBody res) zero_clusterHealthResponse,
          c, [EvGet (target c); EvDecode; EvClose]).
Proof.
  intros G Hc. apply Z.eqb_eq in Hc.
  unfold fetchAndDecodeClusterHealth, defer, bind, read, emit, ret.
  fold (health_url (url c)). rewrite G, Hc. simpl.
  destruct (Decode (ResponseBody res) zero_clusterHealthResponse) as [chr [e|]];
    reflexivity.
Qed.

(** A fetch always returns, leaves the collector as it found it, and
    depends on the collector through its URL only.  It issues its one
    request first; what follows is the decoding and the closing of the
    body. *)
Lemma fetch_run env (c : CH) :
  exists r after,
    In after [[]; [EvClose]; [EvDecode; EvClose]] /\
    forall c2 : CH, url c2 = url c ->
      fetchAndDecodeClusterHealth URL_String env c2 =
        Some (r, c2, EvGet (target c) :: after).
Proof.
  destruct (http_Get env (target c)) as [res|e] eqn:G.
  - destruct (Z.eq_dec (StatusCode res) http_StatusOK) as [Hc|Hc].
    + do 2 eexists. split; [right; right; left; reflexivity|].
      intros c2 E. rewrite <- E in G.
      rewrite (fetch_decode env c2 res G Hc), E. reflexivity.
    + do 2 eexists. split; [right; left; reflexivity|].
      intros c2 E. rewrite <- E in G.
      rewrite (fetch_status env c2 res G Hc), E. reflexivity.
  - do 2 eexists. split; [left; reflexivity|].
    intros c2 E. rewrite <- E in G.
    rewrite (fetch_transport env c2 e G), E. reflexivity.
Qed.

Lemma fetched_run env (c : CH) chr err :
  fetched URL_String env c = Some (chr, err) ->
  exists after,
    In after [[]; [EvClose]; [EvDecode; EvClose]] /\
    forall c2 : CH, url c2 = url c ->
      fetchAndDecodeClusterHealth URL_String env c2 =
        Some ((chr, err), c2, EvGet (target c) :: after).
Proof.
  intro F. destruct (fetch_run env c) as (r & after & Ha & H).
  unfold fetched in F. rewrite (H c eq_refl) in F. injection F as ->.
  exists after. split; assumption.
Qed.

Lemma fetched_total env (c : CH) :
  exists chr err, fetched URL_String env c = Some (chr, err).
Proof.
  destruct (fetch_run env c) as ([chr err] & after & _ & H).
  exists chr, err. unfold fetched. rewrite (H c eq_refl). reflexivity.
Qed.

(** *** Running Collect and Describe on a collector with known tables *)

(** [run_Collect Hf] proves that Collect returns, given the outcome [Hf]
    of the fetch; [ran_Collect Hf] then instantiates the state and the
    trace of a goal [exists c' tr, Collect env c = Some (tt, c', tr) /\ _]
    with what the run produced. *)
Ltac run_Collect Hf :=
  unfold Collect;
  eapply bind_run; [reflexivity|];
  eapply bind_run; [apply Hf; reflexivity|];
  reflexivity.

Ltac ran_Collect Hf :=
  lazymatch goal with
  | |- exists c' tr, Collect ?U ?env ?c = _ /\ _ =>
      let H := fresh "Run" in
      eassert (H : Collect U env c = Some (tt, _, _)) by run_Collect Hf;
      cbn in H;
      eexists _, _; split; [exact H | clear H]
  end.

Lemma range_describe (ms : list clusterHealthMetric) (c : CH) :
  range Logger Client ms (fun metric => emit Logger Client (EvDescribe (m_Desc metric))) c =
    Some (tt, c, map (fun metric => EvDescribe (m_Desc metric)) ms).
Proof.
  induction ms as [|m ms IH]; simpl.
  - reflexivity.
  - unfold bind, emit at 1. rewrite IH. reflexivity.
Qed.

Lemma Describe_run (c : CH) :
  Describe c =
    Some (tt, c, map EvDescribe (map m_Desc (metrics c) ++ [s_Desc (statusMetric c)])).
Proof.
  unfold Describe.
  erewrite bind_run; [|reflexivity|].
  2:{ erewrite bind_run; [|apply range_describe|]. 2:{ reflexivity. } reflexivity. }
  simpl. rewrite map_app, map_map. reflexivity.
Qed.

(** Every reachable collector is the fresh one up to the values of the
    meta-metrics. *)
Lemma Reachable_at_values (c : CH) :
  Reachable URL_String c ->
  exists lg cl u n1 n2 v1 v2 v3,
    c = at_values URL_String lg cl u n1 n2 v1 v2 v3 /\ (v1 = 0%float \/ v1 = 1%float).
Proof.
  induction 1 as [lg cl u | c c' tr _ IH HD | env c c' tr _ IH HC].
  - exists lg, cl, u, 0%N, 0%N, 0%float, 0%float, 0%float. split; [reflexivity | now left].
  - rewrite Describe_run in HD. injection HD as <- _. exact IH.
  - destruct IH as (lg & cl & u & n1 & n2 & v1 & v2 & v3 & -> & _).
    destruct (fetch_run env (at_values URL_String lg cl u n1 n2 v1 v2 v3))
      as ([chr [e|]] & after & _ & Hf).
    + erewrite (ltac:(run_Collect Hf) : Collect URL_String env _ = Some _) in HC.
      injection HC as <- _. do 8 eexists. split; [reflexivity | now right].
    + erewrite (ltac:(run_Collect Hf) : Collect URL_String env _ = Some _) in HC.
      injection HC as <- _. do 8 eexists. split; [reflexivity | now left].
Qed.


Ltac known_state R :=
  let lg := fresh "lg" in let cl := fresh "cl" in let u := fresh "u" in
  let n1 := fresh "n" in let n2 := fresh "n" in
  let v1 := fresh "v" in let v2 := fresh "v" in let v3 := fresh "v" in
  let Hv := fresh "Hv" in
  destruct (Reachable_at_values _ R)
    as (lg & cl & u & n1 & n2 & v1 & v2 & v3 & -> & Hv).

Ltac three_shapes Ha :=
  simpl in Ha; destruct Ha as [<-|[<-|[<-|[]]]].

(** *** The decoder *)

Lemma storeMember_type_error (d : decodeState) (kv : string * json_Value) :
  failed_early (snd d) = false -> failed_early (snd (storeMember d kv)) = false.
Proof.
  unfold storeMember, storeField, saveError.
  destruct (lookupField (fst kv)) as [f|]; [|trivial].
  destruct d as [r [e|]]; destruct (snd kv), (f_target f); simpl;
    try destruct (strconv_ParseInt literal); simpl; trivial.
Qed.

Lemma object_type_error (members : list (string * json_Value)) (d : decodeState) :
  failed_early (snd d) = false ->
  failed_early (snd (fold_left storeMember members d)) = false.
Proof.
  revert d. induction members as [|kv members IH]; intros d H; simpl.
  - exact H.
  - apply IH, storeMember_type_error, H.
Qed.

(** Whatever the decoder reports after it started to store is a type
    mismatch. *)
Lemma unmarshal_type_error (v : json_Value) (chr : clusterHealthResponse) :
  failed_early (snd (unmarshal v chr)) = false.
Proof.
  destruct v; try reflexivity. simpl. now apply object_type_error.
Qed.

Lemma Decode_early (body : Body) :
  failed_early (snd (Decode body zero_clusterHealthResponse)) = true ->
  fst (Decode body zero_clusterHealthResponse) = zero_clusterHealthResponse.
Proof.
  destruct body as [e|v]; simpl.
  - reflexivity.
  - rewrite unmarshal_type_error. discriminate.
Qed.

(** The fetch by cases on the answer, as one equation. *)
Lemma fetched_cases env (c : CH) :
  fetched URL_String env c =
    Some match http_Get env (target c) with
         | inr e =>
             (zero_clusterHealthResponse,
              Some (fmt_Errorf ("failed to get cluster health from " ++ target c
                                  ++ ": " ++ Error e)))
         | inl res =>
             if StatusCode res =? http_StatusOK
             then Decode (ResponseBody res) zero_clusterHealthResponse
             else (zero_clusterHealthResponse,
                   Some (fmt_Errorf ("HTTP Request failed with code "
                                       ++ strconv_Itoa (StatusCode res))))
         end.
Proof.
  unfold fetched.
  destruct (http_Get env (target c)) as [res|e] eqn:G.
  - destruct (Z.eqb_spec (StatusCode res) http_StatusOK) as [Hc|Hc].
    + rewrite (fetch_decode env c res G Hc). reflexivity.
    + rewrite (fetch_status env c res G Hc). reflexivity.
  - rewrite (fetch_transport env c e G). reflexivity.
Qed.

Lemma fetched_early env (c : CH) chr err :
  fetched URL_String env c = Some (chr, err) ->
  failed_early err = true -> chr = zero_clusterHealthResponse.
Proof.
  rewrite fetched_cases. intros [= F] E.
  destruct (http_Get env (target c)) as [res|e].
  - destruct (StatusCode res =? http_StatusOK).
    + pose proof (Decode_early (ResponseBody res)) as D.
      rewrite F in D. apply D, E.
    + now injection F as <- _.
  - now injection F as <- _.
Qed.

(** *** The status samples *)

(** C1: when the status of the fetched record is one of green, yellow and
    red, Collect emits for each of the three colors one status sample,
    labelled with the cluster name and the color, of value 1 for the
    color of the record and 0 for the other two; the three values add up
    to 1. *)
Theorem status_samples_one_hot env (c : CH) chr err color :
  Reachable URL_String c ->
  fetched URL_String env c = Some (chr, err) ->
  In color colors ->
  Status chr = color ->
  exists c' tr,
    Collect URL_String env c = Some (tt, c', tr)
    /\ map (fun m => (labelValues m, metricValue m)) (samples_of (fq "status") (sent tr))
       = map (fun k => ([ClusterName chr; k], flag (String.eqb k color))) colors
    /\ total (samples_of (fq "status") (sent tr)) = 1%float.
Proof.
  intros R F Hin Hs. known_state R.
  destruct (fetched_run env _ chr err F) as (after & Ha & Hf).
  subst color. simpl in Hin.
  destruct Hin as [E|[E|[E|[]]]]; three_shapes Ha; destruct err as [e|];
    ran_Collect Hf; cbn; rewrite <- E; split; reflexivity.
Qed.

(** C2, amended: the sum of the status value function over green, yellow
    and red is decided by the record the fetch returned: it is 0 after
    every failure that ended the fetch before the body was stored
    (transport failure, non-200 status, unreadable body), and otherwise,
    on success as well as after a type mismatch, 1 when the status of the
    record is one of the three colors and 0 when it is not. *)
Theorem status_sum_by_record env (c : CH) chr err :
  Reachable URL_String c ->
  fetched URL_String env c = Some (chr, err) ->
  status_sum (statusMetric c) chr =
    if failed_early err then 0%float else flag (is_known_color (Status chr)).
Proof.
  intros R F. known_state R.
  destruct (failed_early err) eqn:E.
  - rewrite (fetched_early env _ chr err F E). reflexivity.
  - unfold status_sum, is_known_color. simpl.
    destruct (String.eqb (Status chr) "green") eqn:G.
    { apply String.eqb_eq in G. rewrite G. reflexivity. }
    destruct (String.eqb (Status chr) "yellow") eqn:Y.
    { apply String.eqb_eq in Y. rewrite Y. reflexivity. }
    destruct (String.eqb (Status chr) "red") eqn:Rd; reflexivity.
Qed.

(** *** The outcome of the fetch *)

(** C3, amended: the fetch always returns.  After a transport failure and
    after a response whose status is not 200 it returns the zero-valued
    record and an error; so it does when the body cannot be read as a JSON
    value.  For a 200 response with a JSON value it returns the record as
    the decoder left it with the decoder's verdict: no error on success,
    and an error after a type mismatch, when the record holds what was
    stored.  Whenever the error is not a type mismatch the record is the
    zero-valued one. *)
Theorem fetch_outcome env (c : CH) :
  exists chr err,
    fetched URL_String env c = Some (chr, err)
    /\ (if failed_early err then chr = zero_clusterHealthResponse else True)
    /\ match http_Get env (target c) with
       | inr _ => chr = zero_clusterHealthResponse /\ failed_early err = true
       | inl res =>
           if StatusCode res =? http_StatusOK then
             match ResponseBody res with
             | BodyUnreadable e => chr = zero_clusterHealthResponse /\ err = Some e
             | BodyJSON v => (chr, err) = unmarshal v zero_clusterHealthResponse
             end
           else chr = zero_clusterHealthResponse /\ failed_early err = true
       end.
Proof.
  destruct (fetched_total env c) as (chr & err & F).
  exists chr, err. split; [exact F|]. split.
  - destruct (failed_early err) eqn:E; [|trivial].
    exact (fetched_early env c chr err F E).
  - rewrite fetched_cases in F. injection F as F.
    destruct (http_Get env (target c)) as [res|e].
    + destruct (StatusCode res =? http_StatusOK).
      * destruct (ResponseBody res) as [e|v]; simpl in F.
        -- now injection F as <- <-.
        -- now symmetry.
      * now injection F as <- <-.
    + now injection F as <- <-.
Qed.


(** *** The degraded scrape *)

(** C4, amended: a failed fetch does not end the call.  Collect still
    emits the 11 scalar samples, in the order of the table, and then the
    three status samples, all computed from the record the fetch
    returned and labelled with its cluster name.  When the failure is not
    a type mismatch of the decoder (transport failure, non-200 status,
    unreadable body) the record is the zero-valued one: the cluster label
    is the empty string and all 14 values are 0. *)
Theorem failed_fetch_still_emits env (c : CH) chr e :
  Reachable URL_String c ->
  fetched URL_String env c = Some (chr, Some e) ->
  exists c' tr,
    Collect URL_String env c = Some (tt, c', tr)
    /\ List.length (sent tr) = 19%nat
    /\ map (fun m => (sample_key m, metricValue m)) (firstn 14 (sent tr))
       = (map (fun m => (fqName (m_Desc m), [ClusterName chr], m_Value m chr))
              (metrics c)
          ++ map (fun color => (fq "status", [ClusterName chr; color],
                                s_Value (statusMetric c) chr color))
                 colors)%list
    /\ (if is_type_error e then True
        else ClusterName chr = ""
             /\ map metricValue (firstn 14 (sent tr)) = repeat 0%float 14).
Proof.
  intros R F. known_state R.
  destruct (fetched_run env _ chr (Some e) F) as (after & Ha & Hf).
  destruct (is_type_error e) eqn:T.
  - three_shapes Ha; ran_Collect Hf; repeat split; reflexivity.
  - assert (Z0 : chr = zero_clusterHealthResponse).
    { apply (fetched_early env _ chr (Some e) F). simpl. now rewrite T. }
    subst chr.
    three_shapes Ha; ran_Collect Hf; repeat split; reflexivity.
Qed.

(** *** The scrape counter *)

(** C5: every call of Collect adds exactly one to scrapes_total, whatever
    the fetch does: the increment is the first thing the call does, the
    request of the fetch comes right after it, and nothing later in the
    call touches the counter again. *)
Theorem scrapes_total_counts_every_call env (c : CH) :
  Reachable URL_String c ->
  exists c' rest,
    Collect URL_String env c =
      Some (tt, c', EvInc (counterDesc (totalScrapesMetric c))
                      :: EvGet (target c) :: rest)
    /\ fqName (counterDesc (totalScrapesMetric c)) = fq "scrapes_total"
    /\ count (totalScrapesMetric c') = (count (totalScrapesMetric c) + 1)%N
    /\ existsb (is_Inc_of (fq "scrapes_total")) rest = false
    /\ existsb is_Get rest = false.
Proof.
  intro R. known_state R.
  destruct (fetch_run env (at_values URL_String lg cl u n n0 v v0 v1))
    as ([chr err] & after & Ha & Hf).
  three_shapes Ha; destruct err as [e|];
    ran_Collect Hf; repeat split; reflexivity.
Qed.

(** *** The error counter and the last-error gauge *)

(** C6: a call of Collect adds one to scrape_errors_total when its fetch
    failed and leaves the counter alone when it did not; it sets
    last_scrape_error to 1 in the first case and to 0 in the second, and
    sends the gauge with that value.  The gauge of a reachable collector
    is 0 or 1, and after a call it is 1 exactly when the fetch of that
    call failed. *)
Theorem scrape_errors_follow_fetch env (c : CH) chr err :
  Reachable URL_String c ->
  fetched URL_String env c = Some (chr, err) ->
  (gaugeValue (lastScrapeErrorMetric c) = 0%float
   \/ gaugeValue (lastScrapeErrorMetric c) = 1%float)
  /\ exists c' tr,
       Collect URL_String env c = Some (tt, c', tr)
       /\ count (totalScrapeErrorsMetric c')
          = (count (totalScrapeErrorsMetric c) + if failed err then 1 else 0)%N
       /\ List.length (filter (is_Inc_of (fq "scrape_errors_total")) tr)
          = (if failed err then 1 else 0)%nat
       /\ gaugeValue (lastScrapeErrorMetric c') = flag (failed err)
       /\ (gaugeValue (lastScrapeErrorMetric c') = 1%float <-> failed err = true)
       /\ map metricValue (samples_of (fq "last_scrape_error") (sent tr))
          = [flag (failed err)].
Proof.
  intros R F. known_state R. split; [exact Hv|].
  destruct (fetched_run env _ chr err F) as (after & Ha & Hf).
  three_shapes Ha; destruct err as [e|]; ran_Collect Hf;
    (split; [cbn; try rewrite N.add_0_r; reflexivity|]);
    (split; [reflexivity|]); (split; [reflexivity|]);
    (split; [|reflexivity]);
    lazymatch goal with |- _ <-> failed ?o = true => exact (flag_one (failed o)) end.
Qed.

(** *** Describe *)

(** C7: Describe sends 12 descriptors, those of the 11 scalar metrics in
    the order of the table and then the status descriptor, no two of them
    with the same identity; it does nothing else (no request, no counter
    or gauge is touched) and leaves the collector as it found it; every
    call on every reachable collector sends the same sequence. *)
Theorem Describe_twelve_descriptors (c c2 : CH) :
  Reachable URL_String c ->
  Reachable URL_String c2 ->
  exists tr,
    Describe c = Some (tt, c, tr)
    /\ tr = map EvDescribe (described tr)
    /\ requests tr = []
    /\ described tr = (map m_Desc (metrics c) ++ [s_Desc (statusMetric c)])%list
    /\ List.length (map m_Desc (metrics c)) = 11%nat
    /\ List.length (described tr) = 12%nat
    /\ NoDup (map Desc_id (described tr))
    /\ Describe c2 = Some (tt, c2, tr).
Proof.
  intros R R2. known_state R. known_state R2.
  eexists. split; [apply Describe_run|].
  split; [reflexivity|]. split; [reflexivity|]. split; [reflexivity|].
  split; [reflexivity|]. split; [reflexivity|].
  split; [|rewrite Describe_run; reflexivity].
  cbn. repeat (constructor; [simpl; intuition discriminate|]). constructor.
Qed.


(** *** The order of emission *)

Lemma Collect_order env (c : CH) chr err :
  Reachable URL_String c ->
  fetched URL_String env c = Some (chr, err) ->
  exists c' tr,
    Collect URL_String env c = Some (tt, c', tr)
    /\ map sample_key (sent tr)
       = (map (fun m => (fqName (m_Desc m), [ClusterName chr])) (metrics c)
          ++ map (fun color => (fq "status", [ClusterName chr; color]))
                 ["green"; "yellow"; "red"]
          ++ map (fun name => (fq name, []))
                 ["scrapes_total"; "scrape_errors_total"; "last_scrape_error";
                  "last_scrape_timestamp"; "last_scrape_duration_seconds"])%list.
Proof.
  intros R F. known_state R.
  destruct (fetched_run env _ chr err F) as (after & Ha & Hf).
  three_shapes Ha; destruct err as [e|]; ran_Collect Hf; reflexivity.
Qed.

(** C8: the samples of one call of Collect come in a fixed order: the 11
    scalar samples in the order of the table of the collector, the three
    status samples in the order green, yellow, red, then scrapes_total,
    scrape_errors_total, last_scrape_error, last_scrape_timestamp and
    last_scrape_duration_seconds.  Two calls that fetched the same record
    send samples of the same names and label values in the same order. *)
Theorem emission_order_is_fixed env1 env2 (c1 c2 : CH) chr err1 err2 :
  Reachable URL_String c1 ->
  Reachable URL_String c2 ->
  fetched URL_String env1 c1 = Some (chr, err1) ->
  fetched URL_String env2 c2 = Some (chr, err2) ->
  exists c1' tr1 c2' tr2,
    Collect URL_String env1 c1 = Some (tt, c1', tr1)
    /\ Collect URL_String env2 c2 = Some (tt, c2', tr2)
    /\ map sample_key (sent tr1)
       = (map (fun m => (fqName (m_Desc m), [ClusterName chr])) (metrics c1)
          ++ map (fun color => (fq "status", [ClusterName chr; color]))
                 ["green"; "yellow"; "red"]
          ++ map (fun name => (fq name, []))
                 ["scrapes_total"; "scrape_errors_total"; "last_scrape_error";
                  "last_scrape_timestamp"; "last_scrape_duration_seconds"])%list
    /\ map (fun m => fqName (m_Desc m)) (metrics c1)
       = map fq ["active_primary_shards"; "active_shards";
                 "delayed_unassigned_shards"; "initializing_shards";
                 "number_of_data_nodes"; "number_of_in_flight_fetch";
                 "number_of_nodes"; "number_of_pending_tasks";
                 "relocating_shards"; "timed_out"; "unassigned_shards"]
    /\ map sample_key (sent tr2) = map sample_key (sent tr1).
Proof.
  intros R1 R2 F1 F2.
  destruct (Collect_order env1 c1 chr err1 R1 F1) as (c1' & tr1 & H1 & O1).
  destruct (Collect_order env2 c2 chr err2 R2 F2) as (c2' & tr2 & H2 & O2).
  exists c1', tr1, c2', tr2.
  split; [exact H1|]. split; [exact H2|]. split; [exact O1|].
  known_state R1. known_state R2.
  split; [reflexivity|]. rewrite O1, O2. reflexivity.
Qed.

(** *** The request *)

(** C9: the fetch issues one request, for the rendering of a copy of the
    base URL whose path is /_cluster/health and whose other components
    are those of the base URL; the collector, and with it the URL it
    shares, is after the fetch what it was before. *)
Theorem fetch_requests_health_path env (c : CH) :
  exists r tr,
    fetchAndDecodeClusterHealth URL_String env c = Some (r, c, tr)
    /\ requests tr = [URL_String (health_url (url c))]
    /\ health_url (url c)
       = mkURL (Scheme (url c)) (Opaque (url c)) (User (url c)) (Host (url c))
               "/_cluster/health" (RawPath (url c)) (ForceQuery (url c))
               (RawQuery (url c)) (Fragment (url c)).
Proof.
  destruct (fetch_run env c) as (r & after & Ha & H).
  exists r, (EvGet (target c) :: after).
  split; [exact (H c eq_refl)|]. split; [|reflexivity].
  three_shapes Ha; reflexivity.
Qed.

(** C10: when the request is not answered with status 200 the fetch
    returns the zero-valued record and an error without decoding the
    body: for a response with another status the error is the
    HTTP-status error with the code of the response, whatever the body
    holds, and for a transport failure it wraps the failure.  Neither is
    an error of the decoder, so a decoder error means the status was
    200. *)
Theorem no_decode_unless_200 env (c : CH) :
  answered_200 (http_Get env (target c)) = false ->
  exists e tr,
    fetchAndDecodeClusterHealth URL_String env c =
      Some ((zero_clusterHealthResponse, Some e), c, tr)
    /\ existsb is_Decode tr = false
    /\ is_decode_error e = false
    /\ match http_Get env (target c) with
       | inl res =>
           e = fmt_Errorf ("HTTP Request failed with code "
                             ++ strconv_Itoa (StatusCode res))
       | inr failure =>
           e = fmt_Errorf ("failed to get cluster health from " ++ target c
                             ++ ": " ++ Error failure)
       end.
Proof.
  intro A.
  destruct (http_Get env (target c)) as [res|failure] eqn:G; simpl in A.
  - apply Z.eqb_neq in A.
    do 2 eexists. split; [apply (fetch_status env c res G A)|].
    repeat split; reflexivity.
  - do 2 eexists. split; [apply (fetch_transport env c failure G)|].
    repeat split; reflexivity.
Qed.

(** *** The state a call leaves *)

Lemma fetched_url env (c c2 : CH) :
  url c2 = url c -> fetched URL_String env c2 = fetched URL_String env c.
Proof.
  intro E. destruct (fetch_run env c) as (r & after & _ & H).
  unfold fetched. rewrite (H c2 E), (H c eq_refl). reflexivity.
Qed.

(** Collect on a collector with known values: the values it leaves. *)
Lemma Collect_at_values env (lg : Logger) (cl : Client) u n1 n2 v1 v2 v3 chr err :
  fetched URL_String env (at_values URL_String lg cl u n1 n2 v1 v2 v3) = Some (chr, err) ->
  exists tr,
    Collect URL_String env (at_values URL_String lg cl u n1 n2 v1 v2 v3) =
      Some (tt,
            at_values URL_String lg cl u (n1 + 1) (n2 + if failed err then 1 else 0)
              (flag (failed err))
              (float64_of_int (Unix (now_timestamp env)))
              (Seconds (Sub (now_since env) (now_begun env))),
            tr).
Proof.
  intro F. destruct (fetched_run env _ chr err F) as (after & Ha & Hf).
  destruct err as [e|]; simpl failed; cbv iota; [|rewrite N.add_0_r];
    eexists; run_Collect Hf.
Qed.

(** X5: a call of Collect writes the values of the five meta-metrics and
    nothing else of the collector: the logger, the client, the base URL,
    the table of scalar metrics, the status metric and the descriptors of
    the meta-metrics are after the call what they were before. *)
Theorem Collect_changes_values_only env (c : CH) :
  Reachable URL_String c ->
  exists c' tr,
    Collect URL_String env c = Some (tt, c', tr)
    /\ logger c' = logger c /\ client c' = client c /\ url c' = url c
    /\ metrics c' = metrics c /\ statusMetric c' = statusMetric c
    /\ counterDesc (totalScrapesMetric c') = counterDesc (totalScrapesMetric c)
    /\ counterDesc (totalScrapeErrorsMetric c') = counterDesc (totalScrapeErrorsMetric c)
    /\ gaugeDesc (lastScrapeErrorMetric c') = gaugeDesc (lastScrapeErrorMetric c)
    /\ gaugeDesc (lastScrapeTimestampMetric c') = gaugeDesc (lastScrapeTimestampMetric c)
    /\ gaugeDesc (lastScrapeDurationSecondsMetric c')
       = gaugeDesc (lastScrapeDurationSecondsMetric c).
Proof.
  intro R. known_state R.
  destruct (fetched_total env (at_values URL_String lg cl u n n0 v v0 v1))
    as (chr & err & F).
  destruct (Collect_at_values env lg cl u n n0 v v0 v1 chr err F) as (tr & H).
  eexists _, tr. split; [exact H|]. repeat split.
Qed.

(** *** The samples of a call *)

(** X1: on every call, whether the fetch failed or not, the 11 scalar
    samples are gauges labelled with the cluster name of the fetched
    record, and each carries the field of the record its name says:
    active_primary_shards the active primary shards, and so on in the
    order of the table; timed_out is 1 when the record says so and 0
    otherwise. *)
Theorem scalar_samples_report_fields env (c : CH) chr err :
  Reachable URL_String c ->
  fetched URL_String env c = Some (chr, err) ->
  exists c' tr,
    Collect URL_String env c = Some (tt, c', tr)
    /\ map (fun m => (sample_key m, metricType m, metricValue m)) (firstn 11 (sent tr))
       = [ (fq "active_primary_shards", [ClusterName chr], GaugeValue,
            float64_of_int (ActivePrimaryShards chr));
           (fq "active_shards", [ClusterName chr], GaugeValue,
            float64_of_int (ActiveShards chr));
           (fq "delayed_unassigned_shards", [ClusterName chr], GaugeValue,
            float64_of_int (DelayedUnassignedShards chr));
           (fq "initializing_shards", [ClusterName chr], GaugeValue,
            float64_of_int (InitializingShards chr));
           (fq "number_of_data_nodes", [ClusterName chr], GaugeValue,
            float64_of_int (NumberOfDataNodes chr));
           (fq "number_of_in_flight_fetch", [ClusterName chr], GaugeValue,
            float64_of_int (NumberOfInFlightFetch chr));
           (fq "number_of_nodes", [ClusterName chr], GaugeValue,
            float64_of_int (NumberOfNodes chr));
           (fq "number_of_pending_tasks", [ClusterName chr], GaugeValue,
            float64_of_int (NumberOfPendingTasks chr));
           (fq "relocating_shards", [ClusterName chr], GaugeValue,
            float64_of_int (RelocatingShards chr));
           (fq "timed_out", [ClusterName chr], GaugeValue, flag (TimedOut chr));
           (fq "unassigned_shards", [ClusterName chr], GaugeValue,
            float64_of_int (UnassignedShards chr)) ].
Proof.
  intros R F. known_state R.
  destruct (fetched_run env _ chr err F) as (after & Ha & Hf).
  three_shapes Ha; destruct err as [e|]; ran_Collect Hf; reflexivity.
Qed.

(** X2: the status of the record is compared with the three colors
    byte for byte.  When it is none of them (empty, another word, another
    case) the three status samples are all 0. *)
Theorem unknown_status_gives_zeros env (c : CH) chr err :
  Reachable URL_String c ->
  fetched URL_String env c = Some (chr, err) ->
  is_known_color (Status chr) = false ->
  exists c' tr,
    Collect URL_String env c = Some (tt, c', tr)
    /\ map (fun m => (labelValues m, metricValue m)) (samples_of (fq "status") (sent tr))
       = map (fun k => ([ClusterName chr; k], 0%float)) colors.
Proof.
  intros R F K. known_state R.
  destruct (fetched_run env _ chr err F) as (after & Ha & Hf).
  unfold is_known_color in K. simpl in K.
  apply orb_false_elim in K. destruct K as [G K].
  apply orb_false_elim in K. destruct K as [Y K].
  apply orb_false_elim in K. destruct K as [Rd _].
  three_shapes Ha; destruct err as [e|]; ran_Collect Hf; cbn;
    rewrite G, Y, Rd; reflexivity.
Qed.

(** X4: the five meta-metric samples of a call already include the call:
    scrapes_total is sent with the count after its increment,
    scrape_errors_total with the count after the error of this call, if
    any, and the three gauges with the values just set: the error flag,
    the Unix time of the second clock reading, and the seconds between the
    first and the last clock reading.  Each carries the constant label url
    with the rendering of the base URL (not of the health URL). *)
Theorem meta_samples_include_the_call env (c : CH) chr err :
  Reachable URL_String c ->
  fetched URL_String env c = Some (chr, err) ->
  exists c' tr,
    Collect URL_String env c = Some (tt, c', tr)
    /\ map (fun m => (fqName (metricDesc m), constLabels (metricDesc m),
                      labelValues m, metricType m, metricValue m))
           (skipn 14 (sent tr))
       = [ (fq "scrapes_total", [("url", URL_String (url c))], [], CounterValue,
            float64_of_int (Z.of_N (count (totalScrapesMetric c) + 1)));
           (fq "scrape_errors_total", [("url", URL_String (url c))], [], CounterValue,
            float64_of_int
              (Z.of_N (count (totalScrapeErrorsMetric c) + if failed err then 1 else 0)));
           (fq "last_scrape_error", [("url", URL_String (url c))], [], GaugeValue,
            flag (failed err));
           (fq "last_scrape_timestamp", [("url", URL_String (url c))], [], GaugeValue,
            float64_of_int (Unix (now_timestamp env)));
           (fq "last_scrape_duration_seconds", [("url", URL_String (url c))], [],
            GaugeValue, Seconds (Sub (now_since env) (now_begun env))) ].
Proof.
  intros R F. known_state R.
  destruct (fetched_run env _ chr err F) as (after & Ha & Hf).
  three_shapes Ha; destruct err as [e|]; ran_Collect Hf;
    cbn; rewrite ?N.add_0_r; reflexivity.
Qed.

(** X8: a call of Collect writes to the logger exactly when its fetch
    failed: one record at level warn, with the message and the error the
    fetch returned; a successful call logs nothing. *)
Theorem failure_is_logged_once env (c : CH) chr err :
  Reachable URL_String c ->
  fetched URL_String env c = Some (chr, err) ->
  exists c' tr,
    Collect URL_String env c = Some (tt, c', tr)
    /\ logged tr
       = match err with
         | Some e => [("warn", [("msg", LogString "failed to fetch and decode cluster health");
                                ("err", LogError e)])]
         | None => []
         end.
Proof.
  intros R F. known_state R.
  destruct (fetched_run env _ chr err F) as (after & Ha & Hf).
  three_shapes Ha; destruct err as [e|]; ran_Collect Hf; reflexivity.
Qed.

(** *** Sequences of calls *)

Lemma scrapes_at_values (lg : Logger) (cl : Client) u envs :
  forall n1 n2 v1 v2 v3,
  exists v1' v2' v3',
    scrapes URL_String envs (at_values URL_String lg cl u n1 n2 v1 v2 v3) =
      Some (at_values URL_String lg cl u
              (n1 + N.of_nat (List.length envs))
              (n2 + N.of_nat (List.length
                      (filter (fun env =>
                                 fetch_fails URL_String env
                                   (NewClusterHealth URL_String lg cl u)) envs)))
              v1' v2' v3').
Proof.
  induction envs as [|env envs IH]; intros n1 n2 v1 v2 v3.
  - exists v1, v2, v3. simpl. rewrite !N.add_0_r. reflexivity.
  - destruct (fetched_total env (at_values URL_String lg cl u n1 n2 v1 v2 v3))
      as (chr & err & F).
    destruct (Collect_at_values env lg cl u n1 n2 v1 v2 v3 chr err F) as (tr & H).
    destruct (IH (n1 + 1)%N (n2 + if failed err then 1 else 0)%N
                 (flag (failed err))
                 (float64_of_int (Unix (now_timestamp env)))
                 (Seconds (Sub (now_since env) (now_begun env))))
      as (v1' & v2' & v3' & S).
    exists v1', v2', v3'.
    cbn [scrapes]. rewrite H, S.
    assert (E : fetch_fails URL_String env (NewClusterHealth URL_String lg cl u)
                = failed err).
    { unfold fetch_fails.
      rewrite (fetched_url env (at_values URL_String lg cl u n1 n2 v1 v2 v3)
                 (NewClusterHealth URL_String lg cl u) eq_refl), F.
      reflexivity. }
    cbn [filter List.length]. rewrite E.
    f_equal. f_equal; [lia|].
    destruct (failed err); cbn [List.length]; lia.
Qed.

(** X6: any number of calls of Collect on a fresh collector complete, and
    leave in scrapes_total the number of calls and in scrape_errors_total
    the number of those calls whose fetch failed. *)
Theorem counters_count_calls_and_failures (lg : Logger) (cl : Client) u envs :
  exists c',
    scrapes URL_String envs (NewClusterHealth URL_String lg cl u) = Some c'
    /\ count (totalScrapesMetric c') = N.of_nat (List.length envs)
    /\ count (totalScrapeErrorsMetric c')
       = N.of_nat (List.length
                     (filter (fun env =>
                                fetch_fails URL_String env
                                  (NewClusterHealth URL_String lg cl u)) envs)).
Proof.
  destruct (scrapes_at_values lg cl u envs 0%N 0%N 0%float 0%float 0%float)
    as (v1 & v2 & v3 & S).
  eexists. split; [exact S|]. split; reflexivity.
Qed.

(** X7: on every reachable collector scrape_errors_total is at most
    scrapes_total. *)
Theorem errors_never_exceed_scrapes (c : CH) :
  Reachable URL_String c ->
  (count (totalScrapeErrorsMetric c) <= count (totalScrapesMetric c))%N.
Proof.
  induction 1 as [lg cl u | c c' tr R IH HD | env c c' tr R IH HC].
  - reflexivity.
  - rewrite Describe_run in HD. injection HD as <- _. exact IH.
  - known_state R.
    destruct (fetched_total env (at_values URL_String lg cl u n n0 v v0 v1))
      as (chr & err & F).
    destruct (Collect_at_values env lg cl u n n0 v v0 v1 chr err F) as (tr' & H).
    rewrite H in HC. injection HC as <- _.
    cbn in IH |- *. destruct (failed err); lia.
Qed.

(** *** The response body *)

(** X9: the fetch closes the body of every response it received, once
    and as its last action, whether the status was 200 or not and whether
    the decoding failed or not; when the request itself failed there is
    no body and nothing is closed. *)
Theorem body_is_closed_once env (c : CH) :
  exists r tr,
    fetchAndDecodeClusterHealth URL_String env c = Some (r, c, tr)
    /\ match http_Get env (target c) with
       | inl _ =>
           List.length (filter is_Close tr) = 1%nat /\ last tr (EvGet "") = EvClose
       | inr _ => filter is_Close tr = []
       end.
Proof.
  destruct (http_Get env (target c)) as [res|e] eqn:G.
  - destruct (Z.eq_dec (StatusCode res) http_StatusOK) as [Hc|Hc].
    + do 2 eexists. split; [apply (fetch_decode env c res G Hc)|]. split; reflexivity.
    + do 2 eexists. split; [apply (fetch_status env c res G Hc)|]. split; reflexivity.
  - do 2 eexists. split; [apply (fetch_transport env c e G)|]. reflexivity.
Qed.

(** *** Described and collected *)

(** X10: the descriptor of each of the 14 scalar and status samples of a
    call is one of those Describe sends; the descriptors of the five
    meta-metric samples are not: Describe does not announce them. *)
Theorem meta_metrics_are_not_described env (c : CH) chr err :
  Reachable URL_String c ->
  fetched URL_String env c = Some (chr, err) ->
  exists c' tr announced,
    Collect URL_String env c = Some (tt, c', tr)
    /\ Describe c = Some (tt, c, map EvDescribe announced)
    /\ Forall (fun m => In (metricDesc m) announced) (firstn 14 (sent tr))
    /\ Forall (fun m => ~ In (Desc_id (metricDesc m)) (map Desc_id announced))
              (skipn 14 (sent tr))
    /\ List.length (skipn 14 (sent tr)) = 5%nat.
Proof.
  intros R F. known_state R.
  destruct (fetched_run env _ chr err F) as (after & Ha & Hf).
  assert (Run : exists c' tr,
             Collect URL_String env (at_values URL_String lg cl u n n0 v v0 v1)
             = Some (tt, c', tr)
             /\ map metricDesc (firstn 14 (sent tr))
                = (map m_Desc clusterHealthMetrics
                   ++ repeat (s_Desc clusterHealthStatus) 3)%list
             /\ map (fun m => fqName (metricDesc m)) (skipn 14 (sent tr))
                = map fq ["scrapes_total"; "scrape_errors_total"; "last_scrape_error";
                          "last_scrape_timestamp"; "last_scrape_duration_seconds"]).
  { three_shapes Ha; destruct err as [e|]; ran_Collect Hf; split; reflexivity. }
  destruct Run as (c' & tr & HC & H14 & H5).
  exists c', tr, (map m_Desc clusterHealthMetrics ++ [s_Desc clusterHealthStatus])%list.
  split; [exact HC|]. split; [apply Describe_run|].
  split; [|split].
  - apply Forall_forall. intros m Hm.
    apply (in_map metricDesc) in Hm. rewrite H14 in Hm.
    apply in_app_or in Hm. apply in_or_app. destruct Hm as [Hm|Hm].
    + left. exact Hm.
    + right. apply repeat_spec in Hm. rewrite Hm. now left.
  - apply Forall_forall. intros m Hm Hin.
    apply (in_map (fun m => fqName (metricDesc m))) in Hm. rewrite H5 in Hm.
    apply in_map_iff in Hin. destruct Hin as (d & Hd & Hin).
    apply (f_equal fst) in Hd. simpl in Hd. rewrite <- Hd in Hm.
    apply (in_map fqName) in Hin. clear - Hm Hin.
    revert Hm Hin. generalize (fqName d). intros name Hm Hin.
    cbn in Hm, Hin.
    repeat (destruct Hm as [Hm|Hm]; [subst name; intuition discriminate|]).
    exact Hm.
  - apply (f_equal (@List.length _)) in H5. rewrite !length_map in H5. exact H5.
Qed.

(** *** More on the decoder *)

Lemma fold_unknown (members : list (string * json_Value)) (d : decodeState) :
  fold_left storeMember members d = fold_left storeMember (filter known_key members) d.
Proof.
  revert d. induction members as [|kv members IH]; intro d; [reflexivity|].
  cbn [fold_left filter]. unfold known_key at 1.
  destruct (lookupField (fst kv)) as [f|] eqn:L.
  - cbn [fold_left]. apply IH.
  - replace (storeMember d kv) with d by (unfold storeMember; now rewrite L).
    apply IH.
Qed.

(** X12: members of the answer whose key names no field of the record are
    ignored: decoding an object gives the record and the error that
    decoding it without those members gives. *)
Theorem unknown_members_are_ignored (members : list (string * json_Value))
        (chr : clusterHealthResponse) :
  unmarshal (JObject members) chr = unmarshal (JObject (filter known_key members)) chr.
Proof. apply fold_unknown. Qed.

Lemma blank_decodes_to_zero (v : json_Value) :
  blank v = true ->
  unmarshal v zero_clusterHealthResponse = (zero_clusterHealthResponse, None).
Proof.
  destruct v as [| | | | |members]; try discriminate; intro B; [reflexivity|].
  simpl in B |- *. rewrite fold_unknown.
  replace (filter known_key members) with (@nil (string * json_Value)); [reflexivity|].
  symmetry. induction members as [|kv members IH]; [reflexivity|].
  simpl in B. apply andb_prop in B. destruct B as [K B].
  simpl. destruct (known_key kv); [discriminate|]. apply IH, B.
Qed.

(** X11: a 200 answer that holds nothing for the record, [null] or an
    object without any of the known keys, is a successful fetch of the
    zero-valued record. *)
Theorem blank_answer_is_a_success env (c : CH) res v :
  http_Get env (target c) = inl res ->
  StatusCode res = http_StatusOK ->
  ResponseBody res = BodyJSON v ->
  blank v = true ->
  fetched URL_String env c = Some (zero_clusterHealthResponse, None).
Proof.
  intros G Hc Hb B. rewrite fetched_cases, G.
  apply Z.eqb_eq in Hc. rewrite Hc, Hb. simpl.
  rewrite (blank_decodes_to_zero v B). reflexivity.
Qed.

Lemma field_names_folded (f : structField) :
  In f clusterHealthResponse_fields -> foldName (f_name f) = f_name f.
Proof.
  intro H. simpl in H.
  repeat (destruct H as [<-|H]; [reflexivity|]). destruct H.
Qed.

Lemma field_by_name (f g : structField) :
  In f clusterHealthResponse_fields -> In g clusterHealthResponse_fields ->
  f_name f = f_name g -> f = g.
Proof.
  intros Hf Hg. simpl in Hf.
  repeat (destruct Hf as [<-|Hf];
          [simpl in Hg;
           repeat (destruct Hg as [<-|Hg]; [intro E; first [reflexivity|discriminate E]|]);
           destruct Hg|]).
  destruct Hf.
Qed.

Lemma lookupField_folded (f : structField) (key : string) :
  In f clusterHealthResponse_fields ->
  foldName key = f_name f ->
  lookupField key = Some f.
Proof.
  intros Hf E. unfold lookupField.
  destruct (find (fun g => String.eqb (f_name g) key) clusterHealthResponse_fields)
    as [g|] eqn:X.
  - apply find_some in X. destruct X as [Hg X]. apply String.eqb_eq in X.
    f_equal. symmetry. apply (field_by_name f g Hf Hg).
    rewrite <- E, <- X. apply field_names_folded, Hg.
  - clear X. unfold equalFold. rewrite E.
    simpl in Hf.
    repeat (destruct Hf as [<-|Hf]; [reflexivity|]). destruct Hf.
Qed.

(** X13: the key of a member is matched with the names of the fields
    without regard to case: a key that equals the name of a field after
    case folding is stored into that field, as the exactly spelled key
    is. *)
Theorem keys_match_by_case_folding (f : structField) (key : string) (v : json_Value)
        (d : decodeState) :
  In f clusterHealthResponse_fields ->
  foldName key = f_name f ->
  storeMember d (key, v) = storeField f v d
  /\ storeMember d (key, v) = storeMember d (f_name f, v).
Proof.
  intros Hf E. unfold storeMember. cbn [fst snd].
  rewrite (lookupField_folded f key Hf E).
  rewrite (lookupField_folded f (f_name f) Hf (field_names_folded f Hf)).
  split; reflexivity.
Qed.

Lemma storeMember_fits (kv : string * json_Value) (r : clusterHealthResponse)
      (e : option error) :
  fits kv = true ->
  storeMember (r, e) kv = (fst (storeMember (r, None) kv), e).
Proof.
  unfold fits, storeMember, storeField, saveError.
  destruct (lookupField (fst kv)) as [f|]; [|reflexivity].
  destruct (snd kv), (f_target f); cbn;
    try destruct (strconv_ParseInt literal); cbn;
    first [reflexivity | discriminate].
Qed.

Lemma storeMember_misfit (kv : string * json_Value) (r : clusterHealthResponse)
      (e : option error) :
  fits kv = false ->
  storeMember (r, e) kv =
    (r, match e with
        | Some _ => e
        | None => snd (storeMember (zero_clusterHealthResponse, None) kv)
        end).
Proof.
  unfold fits, storeMember, storeField, saveError.
  destruct (lookupField (fst kv)) as [f|]; [|discriminate].
  destruct (snd kv), (f_target f); cbn;
    try destruct (strconv_ParseInt literal); cbn;
    first [discriminate | destruct e; reflexivity].
Qed.

Lemma fold_misfits (members : list (string * json_Value)) (r : clusterHealthResponse)
      (e : option error) :
  fold_left storeMember members (r, e) =
    (fst (fold_left storeMember (filter fits members) (r, None)),
     match e with
     | Some _ => e
     | None =>
         match find (fun kv => negb (fits kv)) members with
         | Some kv => snd (storeMember (zero_clusterHealthResponse, None) kv)
         | None => None
         end
     end).
Proof.
  revert r e. induction members as [|kv members IH]; intros r e.
  - destruct e; reflexivity.
  - cbn [fold_left filter find]. destruct (fits kv) eqn:Fk; cbn [negb].
    + rewrite (storeMember_fits kv r e Fk). rewrite IH.
      cbn [fold_left]. rewrite (storeMember_fits kv r None Fk).
      reflexivity.
    + rewrite (storeMember_misfit kv r e Fk). rewrite IH.
      destruct e as [e|]; [reflexivity|].
      destruct (snd (storeMember (zero_clusterHealthResponse, None) kv)) eqn:S;
        [reflexivity|].
      unfold fits in Fk. rewrite S in Fk. discriminate.
Qed.

(** X14: a member whose value does not fit the type of its field does not
    end the decoding.  The record the decoder leaves is the one it builds
    from the object without the members that do not fit, and the error it
    returns is the type error of the first member that does not fit (no
    error when all fit). *)
Theorem misfits_are_skipped (members : list (string * json_Value))
        (chr : clusterHealthResponse) :
  unmarshal (JObject members) chr =
    (fst (unmarshal (JObject (filter fits members)) chr),
     match find (fun kv => negb (fits kv)) members with
     | Some kv => snd (storeMember (zero_clusterHealthResponse, None) kv)
     | None => None
     end).
Proof. apply (fold_misfits members chr None). Qed.





End Properties.

(** The decimal rendering of a status code determines the code. *)
Lemma strconv_Itoa_inj (a b : Z) : strconv_Itoa a = strconv_Itoa b -> a = b.
Proof.
  unfold strconv_Itoa. intro H.
  assert (nonnil : forall n, Z.to_int n <> Decimal.Pos Decimal.Nil
                             /\ Z.to_int n <> Decimal.Neg Decimal.Nil).
  { intros [|p|p]; simpl; split; try discriminate;
      intros [= E]; exact (Unsigned.to_uint_nonnil p E). }
  apply (f_equal NilZero.int_of_string) in H.
  rewrite !NilZero.isi in H by apply nonnil.
  injection H as H. now apply DecimalZ.to_int_inj.
Qed.

(* ================================================================== *)
(** ** The properties on the concrete scrapes *)

Lemma Reachable_fresh : Reachable render_plain fresh.
Proof. apply Reachable_New. Defined.

Lemma Reachable_scraped_once : Reachable render_plain scraped_once.
Proof.
  eapply (Reachable_Collect unit unit render_plain env_green fresh).
  - apply Reachable_New.
  - reflexivity.
Defined.

(** Scenario A: the healthy answer gives green = 1, yellow = 0, red = 0. *)
Lemma one_hot_on_green :
  fetched render_plain env_green fresh = Some (record_green, None)
  /\ exists c' tr,
       Collect render_plain env_green fresh = Some (tt, c', tr)
       /\ map (fun m => (labelValues m, metricValue m))
              (samples_of (fq "status") (sent tr))
          = map (fun k => ([ClusterName record_green; k], flag (String.eqb k "green")))
                colors
       /\ total (samples_of (fq "status") (sent tr)) = 1%float.
Proof.
  split; [reflexivity|].
  apply (status_samples_one_hot unit unit render_plain env_green fresh
           record_green None "green").
  - apply Reachable_fresh.
  - reflexivity.
  - simpl; auto.
  - reflexivity.
Defined.

(** A 200 answer that has no status is a successful scrape, and the status
    values add up to 0, not to 1. *)
Lemma success_without_status_sums_to_zero :
  fetched render_plain env_no_status fresh = Some (record_no_status, None)
  /\ status_sum (statusMetric fresh) record_no_status = 0%float
  /\ status_sum (statusMetric fresh) record_no_status <> 1%float.
Proof.
  split; [reflexivity|]. split; [reflexivity|].
  intro H. apply float_one_not_zero. rewrite <- H. reflexivity.
Qed.

(** After a type mismatch the scrape has failed and the status values add
    up to 1. *)
Lemma status_sum_after_mismatch :
  fetched render_plain env_mismatch fresh = Some (record_mismatch, Some mismatch_error)
  /\ status_sum (statusMetric fresh) record_mismatch = 1%float.
Proof.
  split; [reflexivity|].
  apply (status_sum_by_record unit unit render_plain env_mismatch fresh
           record_mismatch (Some mismatch_error)).
  - apply Reachable_fresh.
  - reflexivity.
Defined.

(** A node count written as a string fails the decoding after the name and
    the status of the cluster were stored: the fetch returns an error and a
    record that is not the zero-valued one. *)
Lemma mismatch_returns_stored_fields :
  fetched render_plain env_mismatch fresh = Some (record_mismatch, Some mismatch_error)
  /\ ClusterName record_mismatch = "es1"
  /\ Status record_mismatch = "green"
  /\ record_mismatch <> zero_clusterHealthResponse.
Proof.
  split; [reflexivity|]. split; [reflexivity|]. split; [reflexivity|].
  discriminate.
Qed.

(** The scrape of that answer is a failed one, and it reports the cluster
    es1 with status green = 1. *)
Lemma mismatch_scrape_is_not_zeroed :
  fetched render_plain env_mismatch fresh = Some (record_mismatch, Some mismatch_error)
  /\ option_map
       (fun r => map (fun m => (labelValues m, metricValue m)) (firstn 14 (sent (snd r))))
       (Collect render_plain env_mismatch fresh)
     = Some [ (["es1"], 0%float); (["es1"], 0%float); (["es1"], 0%float);
              (["es1"], 0%float); (["es1"], 0%float); (["es1"], 0%float);
              (["es1"], 0%float); (["es1"], 0%float); (["es1"], 0%float);
              (["es1"], 0%float); (["es1"], 0%float);
              (["es1"; "green"], 1%float); (["es1"; "yellow"], 0%float);
              (["es1"; "red"], 0%float) ]
  /\ "es1" <> ""
  /\ 1%float <> 0%float.
Proof.
  split; [reflexivity|]. split; [reflexivity|]. split; [discriminate|].
  exact float_one_not_zero.
Qed.

(** Scenario B: an internal server error gives 14 zero samples without a
    cluster name. *)
Lemma degraded_on_500 :
  fetched render_plain env_500 fresh = Some (zero_clusterHealthResponse, Some status_500_error)
  /\ exists c' tr,
       Collect render_plain env_500 fresh = Some (tt, c', tr)
       /\ List.length (sent tr) = 19%nat
       /\ map (fun m => (sample_key m, metricValue m)) (firstn 14 (sent tr))
          = (map (fun m => (fqName (m_Desc m), [""], m_Value m zero_clusterHealthResponse))
                 (metrics fresh)
             ++ map (fun color => (fq "status", [""; color],
                                   s_Value (statusMetric fresh)
                                           zero_clusterHealthResponse color))
                    colors)%list
       /\ ("" = "" /\ map metricValue (firstn 14 (sent tr)) = repeat 0%float 14).
Proof.
  split; [reflexivity|].
  apply (failed_fetch_still_emits unit unit render_plain env_500 fresh
           zero_clusterHealthResponse status_500_error).
  - apply Reachable_fresh.
  - reflexivity.
Defined.

(** A refused connection is counted as a scrape. *)
Lemma refused_scrape_is_counted :
  exists c' rest,
    Collect render_plain env_refused fresh =
      Some (tt, c', EvInc (counterDesc (totalScrapesMetric fresh))
                      :: EvGet "http://localhost:9200/_cluster/health" :: rest)
    /\ fqName (counterDesc (totalScrapesMetric fresh)) = fq "scrapes_total"
    /\ count (totalScrapesMetric c') = (count (totalScrapesMetric fresh) + 1)%N
    /\ existsb (is_Inc_of (fq "scrapes_total")) rest = false
    /\ existsb is_Get rest = false.
Proof.
  apply (scrapes_total_counts_every_call unit unit render_plain env_refused fresh).
  apply Reachable_fresh.
Defined.

(** Scenario B, the meta-metrics: the error is counted and flagged. *)
Lemma error_counted_on_500 :
  fetched render_plain env_500 scraped_once
    = Some (zero_clusterHealthResponse, Some status_500_error)
  /\ (gaugeValue (lastScrapeErrorMetric scraped_once) = 0%float
      \/ gaugeValue (lastScrapeErrorMetric scraped_once) = 1%float)
  /\ exists c' tr,
       Collect render_plain env_500 scraped_once = Some (tt, c', tr)
       /\ count (totalScrapeErrorsMetric c')
          = (count (totalScrapeErrorsMetric scraped_once) + 1)%N
       /\ List.length (filter (is_Inc_of (fq "scrape_errors_total")) tr) = 1%nat
       /\ gaugeValue (lastScrapeErrorMetric c') = 1%float
       /\ (gaugeValue (lastScrapeErrorMetric c') = 1%float <-> true = true)
       /\ map metricValue (samples_of (fq "last_scrape_error") (sent tr)) = [1%float].
Proof.
  split; [reflexivity|].
  apply (scrape_errors_follow_fetch unit unit render_plain env_500 scraped_once
           zero_clusterHealthResponse (Some status_500_error)).
  - apply Reachable_scraped_once.
  - reflexivity.
Defined.

(** The descriptors before the first scrape and after it. *)
Lemma describe_before_and_after_a_scrape :
  exists tr,
    Describe fresh = Some (tt, fresh, tr)
    /\ tr = map EvDescribe (described tr)
    /\ requests tr = []
    /\ described tr = (map m_Desc (metrics fresh) ++ [s_Desc (statusMetric fresh)])%list
    /\ List.length (map m_Desc (metrics fresh)) = 11%nat
    /\ List.length (described tr) = 12%nat
    /\ NoDup (map Desc_id (described tr))
    /\ Describe scraped_once = Some (tt, scraped_once, tr).
Proof.
  apply (Describe_twelve_descriptors unit unit render_plain fresh scraped_once).
  - apply Reachable_fresh.
  - apply Reachable_scraped_once.
Defined.

(** Two scrapes of the healthy cluster, the second on the state the first
    left, send their samples in the same order. *)
Lemma two_green_scrapes_same_order :
  exists c1' tr1 c2' tr2,
    Collect render_plain env_green fresh = Some (tt, c1', tr1)
    /\ Collect render_plain env_green scraped_once = Some (tt, c2', tr2)
    /\ map sample_key (sent tr1)
       = (map (fun m => (fqName (m_Desc m), ["es1"])) (metrics fresh)
          ++ map (fun color => (fq "status", ["es1"; color])) ["green"; "yellow"; "red"]
          ++ map (fun name => (fq name, []))
                 ["scrapes_total"; "scrape_errors_total"; "last_scrape_error";
                  "last_scrape_timestamp"; "last_scrape_duration_seconds"])%list
    /\ map (fun m => fqName (m_Desc m)) (metrics fresh)
       = map fq ["active_primary_shards"; "active_shards";
                 "delayed_unassigned_shards"; "initializing_shards";
                 "number_of_data_nodes"; "number_of_in_flight_fetch";
                 "number_of_nodes"; "number_of_pending_tasks";
                 "relocating_shards"; "timed_out"; "unassigned_shards"]
    /\ map sample_key (sent tr2) = map sample_key (sent tr1).
Proof.
  apply (emission_order_is_fixed unit unit render_plain env_green env_green
           fresh scraped_once record_green None None).
  - apply Reachable_fresh.
  - apply Reachable_scraped_once.
  - reflexivity.
  - reflexivity.
Defined.

(** Scenario B, the fetch: status 500 with a body of valid health JSON. *)
Lemma status_500_is_not_decoded :
  answered_200 (http_Get env_500 (render_plain (health_url (url fresh)))) = false
  /\ exists e tr,
       fetchAndDecodeClusterHealth render_plain env_500 fresh =
         Some ((zero_clusterHealthResponse, Some e), fresh, tr)
       /\ existsb is_Decode tr = false
       /\ is_decode_error e = false
       /\ e = status_500_error.
Proof.
  split; [reflexivity|].
  apply (no_decode_unless_200 unit unit render_plain env_500 fresh).
  reflexivity.
Defined.

(* ================================================================== *)
(** ** The status error *)

(** X15: the error of a response whose status is not 200 tells the status
    apart: two such responses give the same error only when their status
    codes are the same. *)
Theorem status_error_tells_the_code (Logger Client : Type) (URL_String : URL -> string)
        env1 env2 (c : ClusterHealth Logger Client) res1 res2 chr1 chr2 e :
  http_Get env1 (URL_String (health_url (url c))) = inl res1 ->
  http_Get env2 (URL_String (health_url (url c))) = inl res2 ->
  StatusCode res1 <> http_StatusOK ->
  StatusCode res2 <> http_StatusOK ->
  fetched URL_String env1 c = Some (chr1, Some e) ->
  fetched URL_String env2 c = Some (chr2, Some e) ->
  StatusCode res1 = StatusCode res2.
Proof.
  intros G1 G2 H1 H2 F1 F2.
  rewrite fetched_cases, G1 in F1. rewrite fetched_cases, G2 in F2.
  apply Z.eqb_neq in H1, H2. rewrite H1 in F1. rewrite H2 in F2.
  injection F1 as _ <-. injection F2 as _ F2.
  apply strconv_Itoa_inj. cbn [append] in F2. inversion F2. reflexivity.
Qed.

(* ================================================================== *)
(** ** Further properties on the concrete scrapes *)


Lemma full_object_is_reported :
  fetched render_plain env_full fresh = Some (record_full, None)
  /\ exists c' tr,
       Collect render_plain env_full fresh = Some (tt, c', tr)
       /\ map (fun m => (sample_key m, metricType m, metricValue m)) (firstn 11 (sent tr))
          = [ (fq "active_primary_shards", ["es1"], GaugeValue, 5%float);
              (fq "active_shards", ["es1"], GaugeValue, 10%float);
              (fq "delayed_unassigned_shards", ["es1"], GaugeValue, 1%float);
              (fq "initializing_shards", ["es1"], GaugeValue, 2%float);
              (fq "number_of_data_nodes", ["es1"], GaugeValue, 3%float);
              (fq "number_of_in_flight_fetch", ["es1"], GaugeValue, 4%float);
              (fq "number_of_nodes", ["es1"], GaugeValue, 6%float);
              (fq "number_of_pending_tasks", ["es1"], GaugeValue, 7%float);
              (fq "relocating_shards", ["es1"], GaugeValue, 8%float);
              (fq "timed_out", ["es1"], GaugeValue, 1%float);
              (fq "unassigned_shards", ["es1"], GaugeValue, 9%float) ].
Proof.
  split; [reflexivity|].
  apply (scalar_samples_report_fields unit unit render_plain env_full fresh
           record_full None).
  - apply Reachable_fresh.
  - reflexivity.
Defined.

(** The key STATUS is accepted, the value Green is not a known color. *)
Lemma other_case_status_gives_zeros :
  fetched render_plain env_upper fresh = Some (record_upper, None)
  /\ is_known_color (Status record_upper) = false
  /\ exists c' tr,
       Collect render_plain env_upper fresh = Some (tt, c', tr)
       /\ map (fun m => (labelValues m, metricValue m))
              (samples_of (fq "status") (sent tr))
          = [ (["es1"; "green"], 0%float); (["es1"; "yellow"], 0%float);
              (["es1"; "red"], 0%float) ].
Proof.
  split; [reflexivity|]. split; [reflexivity|].
  apply (unknown_status_gives_zeros unit unit render_plain env_upper fresh
           record_upper None).
  - apply Reachable_fresh.
  - reflexivity.
  - reflexivity.
Defined.

(** The second scrape, a failed one, reports two scrapes and one error. *)
Lemma meta_samples_of_the_second_scrape :
  exists c' tr,
    Collect render_plain env_500 scraped_once = Some (tt, c', tr)
    /\ map (fun m => (fqName (metricDesc m), constLabels (metricDesc m),
                      labelValues m, metricType m, metricValue m))
           (skipn 14 (sent tr))
       = [ (fq "scrapes_total", [("url", "http://localhost:9200")], [],
            CounterValue, 2%float);
           (fq "scrape_errors_total", [("url", "http://localhost:9200")], [],
            CounterValue, 1%float);
           (fq "last_scrape_error", [("url", "http://localhost:9200")], [],
            GaugeValue, 1%float);
           (fq "last_scrape_timestamp", [("url", "http://localhost:9200")], [],
            GaugeValue, 1500000001%float);
           (fq "last_scrape_duration_seconds", [("url", "http://localhost:9200")], [],
            GaugeValue, 1.5%float) ].
Proof.
  apply (meta_samples_include_the_call unit unit render_plain env_500 scraped_once
           zero_clusterHealthResponse (Some status_500_error)).
  - apply Reachable_scraped_once.
  - reflexivity.
Defined.

Lemma green_scrape_changes_values_only :
  exists c' tr,
    Collect render_plain env_green fresh = Some (tt, c', tr)
    /\ logger c' = logger fresh /\ client c' = client fresh /\ url c' = url fresh
    /\ metrics c' = metrics fresh /\ statusMetric c' = statusMetric fresh
    /\ counterDesc (totalScrapesMetric c') = counterDesc (totalScrapesMetric fresh)
    /\ counterDesc (totalScrapeErrorsMetric c')
       = counterDesc (totalScrapeErrorsMetric fresh)
    /\ gaugeDesc (lastScrapeErrorMetric c') = gaugeDesc (lastScrapeErrorMetric fresh)
    /\ gaugeDesc (lastScrapeTimestampMetric c')
       = gaugeDesc (lastScrapeTimestampMetric fresh)
    /\ gaugeDesc (lastScrapeDurationSecondsMetric c')
       = gaugeDesc (lastScrapeDurationSecondsMetric fresh).
Proof.
  apply (Collect_changes_values_only unit unit render_plain env_green fresh).
  apply Reachable_fresh.
Defined.

Lemma no_errors_after_one_green_scrape :
  (count (totalScrapeErrorsMetric scraped_once)
   <= count (totalScrapesMetric scraped_once))%N.
Proof.
  apply (errors_never_exceed_scrapes unit unit render_plain scraped_once).
  apply Reachable_scraped_once.
Defined.

Lemma status_500_is_logged :
  exists c' tr,
    Collect render_plain env_500 fresh = Some (tt, c', tr)
    /\ logged tr
       = [("warn", [("msg", LogString "failed to fetch and decode cluster health");
                    ("err", LogError status_500_error)])].
Proof.
  apply (failure_is_logged_once unit unit render_plain env_500 fresh
           zero_clusterHealthResponse (Some status_500_error)).
  - apply Reachable_fresh.
  - reflexivity.
Defined.

Lemma green_scrape_sends_undescribed_meta_metrics :
  exists c' tr announced,
    Collect render_plain env_green fresh = Some (tt, c', tr)
    /\ Describe fresh = Some (tt, fresh, map EvDescribe announced)
    /\ Forall (fun m => In (metricDesc m) announced) (firstn 14 (sent tr))
    /\ Forall (fun m => ~ In (Desc_id (metricDesc m)) (map Desc_id announced))
              (skipn 14 (sent tr))
    /\ List.length (skipn 14 (sent tr)) = 5%nat.
Proof.
  apply (meta_metrics_are_not_described unit unit render_plain env_green fresh
           record_green None).
  - apply Reachable_fresh.
  - reflexivity.
Defined.

(** The 200 answer of another service is a successful scrape of nothing. *)
Lemma other_service_is_a_success :
  blank (JObject [("error", JString "no handler found"); ("code", JNumber "200")]) = true
  /\ fetched render_plain env_other_service fresh
     = Some (zero_clusterHealthResponse, None).
Proof.
  split; [reflexivity|].
  apply (blank_answer_is_a_success unit unit render_plain env_other_service fresh
           (mkResponse 200 body_other_service)
           (JObject [("error", JString "no handler found"); ("code", JNumber "200")]));
    reflexivity.
Defined.

Lemma upper_case_status_key_is_stored :
  foldName "STATUS" = "status"
  /\ storeMember (zero_clusterHealthResponse, None) ("STATUS", JString "green")
     = storeField (mkField "status" (StringField Store.Status)) (JString "green")
         (zero_clusterHealthResponse, None)
  /\ storeMember (zero_clusterHealthResponse, None) ("STATUS", JString "green")
     = storeMember (zero_clusterHealthResponse, None) ("status", JString "green").
Proof.
  split; [reflexivity|].
  apply (keys_match_by_case_folding (mkField "status" (StringField Store.Status))
           "STATUS" (JString "green") (zero_clusterHealthResponse, None)).
  - simpl. auto.
  - reflexivity.
Defined.

Lemma two_not_found_answers_agree :
  fetched render_plain env_404 fresh
    = Some (zero_clusterHealthResponse,
            Some (errorString "HTTP Request failed with code 404"))
  /\ StatusCode (mkResponse 404 body_other_service)
     = StatusCode (mkResponse 404 body_other_service).
Proof.
  split; [reflexivity|].
  apply (status_error_tells_the_code unit unit render_plain env_404 env_404 fresh
           (mkResponse 404 body_other_service) (mkResponse 404 body_other_service)
           zero_clusterHealthResponse zero_clusterHealthResponse
           (errorString "HTTP Request failed with code 404"));
    first [reflexivity | discriminate].
Defined.

(** Two members that do not fit, around two that do: the fetch returns the
    error of the first and the record with the two that fit. *)
Example first_mismatch_is_reported :
  fetched render_plain (answering (inl (mkResponse 200 body_two_mismatches))) fresh
  = Some (Store.ActiveShards 10 (Store.ClusterName "es1" zero_clusterHealthResponse),
          Some (json_UnmarshalTypeError "string" "bool" "clusterHealthResponse"
                  "timed_out")).
Proof. reflexivity. Qed.
